(** * flaskbb.plugins: plugin discovery and per-plugin migrations

    A shallow embedding of [flaskbb/plugins/__init__.py] and the properties
    of its functions.  Python values that the module only passes around are
    kept abstract; the calls into the ORM and into the migration tool are
    recorded, not interpreted. *)

From Stdlib Require Import Ascii String.
From stdpp Require Import base strings list gmap.

Local Open Scope string_scope.

(** ** Python strings and [os.path] *)

(** The operations of [str] and of [os.path] that the module uses;
    [os.path] is [posixpath]. *)
Module PyStr.

(** The double quote, written by its code so that no literal has to
    escape it. *)
Definition dquote : string := String "034"%char EmptyString.
Definition squote : string := "'".

(** [s.startswith(p)] *)
Definition startswith (p s : string) : bool := String.prefix p s.

(** [s.endswith(p)] *)
Definition endswith (p s : string) : bool :=
  let n := String.length s in
  let k := String.length p in
  (k <=? n)%nat && String.eqb (String.substring (n - k) k s) p.

(** [sub in s] on strings *)
Fixpoint str_in (sub s : string) : bool :=
  String.prefix sub s ||
  match s with
  | EmptyString => false
  | String _ s' => str_in sub s'
  end.

(** The character [c] occurs in [s]. *)
Definition has_char (c : ascii) (s : string) : Prop :=
  c ∈ list_ascii_of_string s.

(** [s.split(sep)] for a separator of one character *)
Fixpoint split (sep : ascii) (s : string) : list string :=
  match s with
  | EmptyString => [EmptyString]
  | String c s' =>
      if Ascii.eqb c sep then EmptyString :: split sep s'
      else match split sep s' with
           | w :: ws => String c w :: ws
           | [] => [String c EmptyString]
           end
  end.

(** [sep.join(l)] *)
Definition join (sep : string) (l : list string) : string :=
  String.concat sep l.

(** One round of the loop of [posixpath.join]. *)
Definition join_step (path b : string) : string :=
  if startswith "/" b then b
  else if String.eqb path "" || endswith "/" path then path +:+ b
  else path +:+ "/" +:+ b.

(** [os.path.join(a, *p)] *)
Definition os_path_join (a : string) (p : list string) : string :=
  fold_left join_step p a.

Fixpoint drop_while {A} (f : A → bool) (l : list A) : list A :=
  match l with
  | [] => []
  | x :: l' => if f x then drop_while f l' else l
  end.

Definition is_slash (c : ascii) : bool := Ascii.eqb c "/"%char.

(** [os.path.split(p)[0]]: everything up to the last slash, without the
    trailing slashes unless it is made of slashes only. *)
Definition os_path_split_head (p : string) : string :=
  let head_rev :=
    drop_while (λ c, negb (is_slash c)) (rev (list_ascii_of_string p)) in
  if forallb is_slash head_rev
  then string_of_list_ascii (rev head_rev)
  else string_of_list_ascii (rev (drop_while is_slash head_rev)).

End PyStr.

(** ** Exceptions and the state-and-exception monad *)

Inductive exn :=
  | AttributeError (msg : string)
  | TypeError (msg : string)
  | ValueError (msg : string)
  | IOError
  | PluginError (msg : string)
  | RecursionError
  | OtherError (msg : string)
  | SystemExit (code : string)
  | KeyboardInterrupt.

(** [isinstance(e, Exception)]: all but [SystemExit] and
    [KeyboardInterrupt], which derive from [BaseException] only. *)
Definition is_Exception (e : exn) : bool :=
  match e with
  | SystemExit _ | KeyboardInterrupt => false
  | _ => true
  end.

Inductive result (A : Type) :=
  | Ok (a : A)
  | Raise (e : exn).
Arguments Ok {A} a.
Arguments Raise {A} e.

(** A Python statement that runs on a mutable state [S]: it returns or
    raises, and in both cases leaves a state behind. *)
Definition M (S A : Type) : Type := S → result A * S.

Definition raise {S A} (e : exn) : M S A := λ s, (Raise e, s).

Global Instance M_ret {S} : MRet (M S) := λ A a s, (Ok a, s).
Global Instance M_bind {S} : MBind (M S) :=
  λ A B k m s, match m s with
               | (Ok a, s') => k a s'
               | (Raise e, s') => (Raise e, s')
               end.

Definition get_state {S} : M S S := λ s, (Ok s, s).
Definition modify {S} (f : S → S) : M S unit := λ s, (Ok tt, f s).

(** [try: m except Exception as e: h e]: an exception that is no
    [Exception] goes through. *)
Definition try_except {S A} (m : M S A) (h : exn → M S A) : M S A :=
  λ s, match m s with
       | (Ok a, s') => (Ok a, s')
       | (Raise e, s') => if is_Exception e then h e s' else (Raise e, s')
       end.

(** [for x in l: f x] *)
Fixpoint for_each {S A} (f : A → M S unit) (l : list A) : M S unit :=
  match l with
  | [] => mret tt
  | x :: l' => f x ;; for_each f l'
  end.

(** ** Dictionaries that keep insertion order *)

Module PyDict.

Definition dict (V : Type) : Type := list (string * V).

Definition empty {V} : dict V := [].

(** [d.get(k)] *)
Fixpoint dict_get {V} (k : string) (d : dict V) : option V :=
  match d with
  | [] => None
  | (k', v) :: d' => if String.eqb k k' then Some v else dict_get k d'
  end.

(** [d[k] = v]: a key that is present keeps its place. *)
Fixpoint dict_set {V} (k : string) (v : V) (d : dict V) : dict V :=
  match d with
  | [] => [(k, v)]
  | (k', v') :: d' =>
      if String.eqb k k' then (k', v) :: d' else (k', v') :: dict_set k v d'
  end.

(** [d.keys()] and [d.values()] *)
Definition keys {V} (d : dict V) : list string := map fst d.
Definition values {V} (d : dict V) : list V := map snd d.

End PyDict.
Import PyDict.

(** ** The plugin base class *)

(** An instance of (a subclass of) [FlaskBBPlugin].  [path] and
    [identifier] are set by the constructor of the base class [Plugin];
    [settings_key] is [None] unless the subclass sets it; [module_name] is
    [self.__module__]. *)
Record FlaskBBPlugin := {
  path : string;
  identifier : string;
  settings_key : option string;
  module_name : string
}.

(** The class attribute [settings_key = None] of [FlaskBBPlugin]. *)
Definition default_settings_key : option string := None.

(** The first value of [fname] in [resource_filename]: the names, split
    when there is one name with a slash in it, joined onto [self.path]. *)
Definition resource_fname (self : FlaskBBPlugin) (names : list string) : string :=
  let names :=
    match names with
    | [n] => if PyStr.str_in "/" n then PyStr.split "/" n else names
    | _ => names
    end in
  PyStr.os_path_join (path self) names.

Definition resource_filename (self : FlaskBBPlugin) (names : list string) : string :=
  let fname := resource_fname self names in
  if PyStr.str_in " " fname
     && negb (PyStr.str_in PyStr.dquote fname)
     && negb (PyStr.str_in PyStr.squote fname)
  then PyStr.dquote +:+ fname +:+ PyStr.dquote
  else fname.

Definition get_migration_version_dir (self : FlaskBBPlugin) : string :=
  resource_filename self ["migration_versions"].

Definition installable (self : FlaskBBPlugin) : bool :=
  match settings_key self with
  | Some _ => true
  | None => false
  end.

(** ** The plugin manager *)

(** The attributes of the manager that this module reads and writes.  The
    three dictionaries are made by the constructor of the base class
    [PluginManager]; [load_plugins] starts the first two afresh and goes
    on with the third. *)
Record PluginManager := {
  plugin_folder : string;
  _plugins : dict FlaskBBPlugin;
  _all_plugins : dict FlaskBBPlugin;
  _found_plugins : dict string
}.

Definition set__plugins (d : dict FlaskBBPlugin) (self : PluginManager) : PluginManager :=
  {| plugin_folder := plugin_folder self; _plugins := d;
     _all_plugins := _all_plugins self; _found_plugins := _found_plugins self |}.
Definition set__all_plugins (d : dict FlaskBBPlugin) (self : PluginManager) : PluginManager :=
  {| plugin_folder := plugin_folder self; _plugins := _plugins self;
     _all_plugins := d; _found_plugins := _found_plugins self |}.
Definition set__found_plugins (d : dict string) (self : PluginManager) : PluginManager :=
  {| plugin_folder := plugin_folder self; _plugins := _plugins self;
     _all_plugins := _all_plugins self; _found_plugins := d |}.

(** What [pkgutil.get_data(pkgname, 'DISABLED')] does: it returns the
    bytes of the file, returns [None] when the loader cannot read data, or
    raises [IOError] when there is no such file. *)
Inductive get_data_result :=
  | DataBytes (content : string)
  | DataNone
  | DataIOError.

(** A plugin class found in a package: calling it with the plugin path
    gives the instance, or raises what the constructor raises (the
    constructor of the base class [Plugin] reads the [info.json] of the
    plugin). *)
Record PluginClass := { class_init : string → result FlaskBBPlugin }.

(** An attribute of a loaded module: a plugin class, or something that
    cannot be called, of the type named. *)
Inductive module_attr :=
  | AttrClass (plugin_class : PluginClass)
  | AttrOther (type_name : string).

(** One element of [pluginmodules]: the name of the package and what the
    loop reads from the loaded module: the outcome of reading ['DISABLED'],
    the attribute [__plugin__] when the module has it, the attributes that
    [getattr] finds in the module, and the file name its loader gives. *)
Record package := {
  pkgname : string;
  pkg_DISABLED : get_data_result;
  pkg___plugin__ : option string;
  pkg_attrs : gmap string module_attr;
  pkg_filename : string
}.

Definition not_callable_message (type_name : string) : string :=
  "'" +:+ type_name +:+ "' object is not callable".

Definition plugin_error_message (class_name : string) : string :=
  "Couldn't import " +:+ class_name +:+
  " Plugin. Please check if the __plugin__ variable is set correctly.".

(** The first [try] of the loop: the plugin is enabled when reading
    ['DISABLED'] raises [IOError]. *)
Definition is_enabled (p : package) : bool :=
  match pkg_DISABLED p with
  | DataIOError => true
  | _ => false
  end.

(** The body of the [for] loop of [load_plugins]. *)
Definition scan_package (p : package) : M PluginManager unit :=
  let enabled := is_enabled p in
  match pkg___plugin__ p with
  | None => mret tt
  | Some class_name =>
      modify (λ self, set__found_plugins
                (dict_set class_name (pkgname p) (_found_plugins self)) self) ;;
      match pkg_attrs p !! class_name with
      | None => raise (PluginError (plugin_error_message class_name))
      | Some plugin_class =>
          let plugin_path := PyStr.os_path_split_head (pkg_filename p) in
          match plugin_class with
          | AttrOther type_name => raise (TypeError (not_callable_message type_name))
          | AttrClass plugin_class =>
              match class_init plugin_class plugin_path with
              | Raise e => raise e
              | Ok plugin_instance =>
                  (if enabled
                   then modify (λ self, set__plugins
                          (dict_set (identifier plugin_instance) plugin_instance
                             (_plugins self)) self)
                   else mret tt) ;;
                  modify (λ self, set__all_plugins
                            (dict_set (identifier plugin_instance) plugin_instance
                               (_all_plugins self)) self)
              end
          end
      end
  end.

(** The package sets [__plugin__] to a name that it does not define. *)
Definition names_missing_class (p : package) : Prop :=
  ∃ class_name, pkg___plugin__ p = Some class_name ∧ pkg_attrs p !! class_name = None.

(** What the loop gets from a package that has a [__plugin__]: the plugin
    made by the class that it names, or the exception raised on the way:
    [PluginError] when the package has no attribute of that name,
    [TypeError] when the attribute cannot be called, and else what the
    constructor raises. *)
Definition pkg_result (p : package) : option (result FlaskBBPlugin) :=
  class_name ← pkg___plugin__ p;
  Some match pkg_attrs p !! class_name with
       | None => Raise (PluginError (plugin_error_message class_name))
       | Some (AttrOther type_name) => Raise (TypeError (not_callable_message type_name))
       | Some (AttrClass plugin_class) =>
           class_init plugin_class (PyStr.os_path_split_head (pkg_filename p))
       end.

(** The instance that the loop makes for a package whose [__plugin__]
    names a class of the package. *)
Definition pkg_instance (p : package) : option FlaskBBPlugin :=
  match pkg_result p with
  | Some (Ok plugin_instance) => Some plugin_instance
  | _ => None
  end.

(** The exception with which a package ends the scan. *)
Definition pkg_raises (p : package) : option exn :=
  match pkg_result p with
  | Some (Raise e) => Some e
  | _ => None
  end.

(** The package sets [__plugin__] to a name under which it has no class:
    nothing at all, or something else than a class. *)
Definition names_no_class (p : package) : Prop :=
  ∃ class_name, pkg___plugin__ p = Some class_name
    ∧ ∀ plugin_class, pkg_attrs p !! class_name ≠ Some (AttrClass plugin_class).

Definition load_plugins (pluginmodules : list package) : M PluginManager (dict string) :=
  modify (set__plugins empty) ;;
  modify (set__all_plugins empty) ;;
  for_each scan_package pluginmodules ;;
  self ← get_state;
  mret (_found_plugins self).


(** ** Migrations scoped to one plugin *)

(** References to mutable objects, the callables the module deals with and
    the values it passes around.  [FNative] is a callable of an external
    library, known by its name; [FPluginTable] is the closure [Table] that
    [db_for_plugin] defines, with the two variables it captures. *)
Definition loc := nat.

Inductive func :=
  | FNative (name : string)
  | FPluginTable (plugin_name : string) (sqla_instance : loc).

Inductive value :=
  | VNone
  | VBool (b : bool)
  | VStr (s : string)
  | VRef (l : loc)
  | VFun (f : func).

(** The calls into the migration tool, with the arguments the module
    gives them. *)
Inductive migrate_call :=
  | Upgrade (directory revision : string)
  | Downgrade (directory revision : string)
  | MigrateHead (directory : string) (head : option string)
  | MigrateBranch (directory version_path : string) (branch_label : option string).

(** What the functions below act on: the attributes of [flask.g] and the
    calls made into [flask_migrate] so far. *)
Record world := {
  g : gmap string value;
  migrate_calls : list migrate_call
}.

Definition set_g (f : gmap string value → gmap string value) (w : world) : world :=
  {| g := f (g w); migrate_calls := migrate_calls w |}.

(** [g.name = v] *)
Definition g_setattr (name : string) (v : value) : M world unit :=
  modify (set_g (insert name v)).

(** [del g.name] *)
Definition g_delattr (name : string) : M world unit :=
  λ w, match g w !! name with
       | Some _ => (Ok tt, set_g (delete name) w)
       | None => (Raise (AttributeError name), w)
       end.

(** [g.name] *)
Definition g_getattr (name : string) : M world value :=
  λ w, match g w !! name with
       | Some v => (Ok v, w)
       | None => (Raise (AttributeError name), w)
       end.

(** A generator function with one [yield] that is not inside a [try], as
    [contextlib.contextmanager] takes it: the statements before the
    [yield] and those after it. *)
Record generator (S : Type) := {
  before_yield : M S unit;
  after_yield : M S unit
}.
Arguments before_yield {S} _.
Arguments after_yield {S} _.

(** [with cm: body] for [cm] made by [contextlib.contextmanager].  Entering
    runs the generator up to the [yield].  On normal exit the generator is
    resumed.  When the body raises, the exception is thrown into the
    generator at the [yield]; nothing there catches it, so the rest of the
    generator is not run and the exception goes on. *)
Definition with_stmt {S A} (cm : generator S) (body : M S A) : M S A :=
  λ s, match before_yield cm s with
       | (Raise e, s1) => (Raise e, s1)
       | (Ok _, s1) =>
           match body s1 with
           | (Ok a, s2) =>
               match after_yield cm s2 with
               | (Ok _, s3) => (Ok a, s3)
               | (Raise e, s3) => (Raise e, s3)
               end
           | (Raise e, s2) => (Raise e, s2)
           end
       end.

Definition plugin_name_migrate (name : value) : generator world :=
  {| before_yield := g_setattr "plugin_name" name;
     after_yield := g_delattr "plugin_name" |}.

Section MigrationTool.

(** The migration tool itself is not modelled: [tool c w] says whether
    the call [c] made in [w] returns or raises. *)
Variable tool : migrate_call → world → result unit.

Definition flask_migrate (c : migrate_call) : M world unit :=
  λ w, (tool c w, {| g := g w; migrate_calls := (migrate_calls w ++ [c])%list |}).

(** [a + '@' + b] where [a] may be [None] *)
Definition revision_of (key : option string) (target : string) : M world string :=
  match key with
  | Some k => mret (k +:+ "@" +:+ target)
  | None => raise (TypeError "unsupported operand type(s) for +: 'NoneType' and 'str'")
  end.

(** In the two functions below [target] is [None] when the caller gives
    no target; [plugin_manager] is
    [current_app.extensions['plugin_manager']]. *)
Definition upgrade_database (plugin_manager : PluginManager)
    (self : FlaskBBPlugin) (target : option string) : M world unit :=
  let target := default "head" target in
  let plugin_dir := plugin_folder plugin_manager in
  let directory := PyStr.os_path_join plugin_dir ["_migration_environment"] in
  revision ← revision_of (settings_key self) target;
  flask_migrate (Upgrade directory revision).

Definition downgrade_database (plugin_manager : PluginManager)
    (self : FlaskBBPlugin) (target : option string) : M world unit :=
  let target := default "base" target in
  let plugin_dir := plugin_folder plugin_manager in
  let directory := PyStr.os_path_join plugin_dir ["_migration_environment"] in
  revision ← revision_of (settings_key self) target;
  flask_migrate (Downgrade directory revision).

Definition migrate (plugin_manager : PluginManager) (self : FlaskBBPlugin) : M world unit :=
  with_stmt (plugin_name_migrate (VStr (module_name self)))
    (let plugin_dir := plugin_folder plugin_manager in
     try_except
       (flask_migrate
          (MigrateHead (PyStr.os_path_join plugin_dir ["_migration_environment"])
             (settings_key self)))
       (λ _, flask_migrate
          (MigrateBranch (PyStr.os_path_join plugin_dir ["_migration_environment"])
             (resource_filename self ["migration_versions"])
             (settings_key self)))).

End MigrationTool.

(** ** The Alembic configuration callback *)

(** The main section of an Alembic [Config], which is there: the options
    with their values as they are stored. *)
Record Config := { main_options : gmap string string }.

(** [config.get_main_option(name)], [None] when the option is not set.  A
    stored value without a per cent sign is given as it is; one with a per
    cent sign goes through the interpolation of the [ConfigParser], which
    is left open here: [interpolate options raw] is what it gives, or what
    it raises. *)
Definition get_main_option (interpolate : gmap string string → string → result string)
    (config : loc) (name : string) : M (list Config) (option string) :=
  λ h, match h !! config with
       | Some c =>
           match main_options c !! name with
           | None => (Ok None, h)
           | Some raw =>
               if PyStr.str_in "%" raw
               then match interpolate (main_options c) raw with
                    | Ok v => (Ok (Some v), h)
                    | Raise e => (Raise e, h)
                    end
               else (Ok (Some raw), h)
           end
       | None => (Raise (OtherError "no such object"), h)
       end.

(** The check that the [ConfigParser] behind a [Config] makes on a value
    before it stores it.  It takes the doubled per cent signs out, then
    the keys [%(name)s], and refuses the value when a per cent sign is
    left. *)
Fixpoint remove_escaped (s : string) : string :=
  match s with
  | EmptyString => EmptyString
  | String c s' =>
      match s' with
      | String c' s'' =>
          if Ascii.eqb c "%" && Ascii.eqb c' "%"
          then remove_escaped s''
          else String c (remove_escaped s')
      | EmptyString => s
      end
  end.

(** Where the reading of a value stands: outside of a key, after the per
    cent sign that must open one, inside its name (of which something has
    been [seen] or not), and after its closing bracket. *)
Inductive key_state :=
  | Outside
  | AfterPercent
  | InKey (seen : bool)
  | AfterKey.

(** No per cent sign is left once the keys are taken out. *)
Fixpoint keys_only (st : key_state) (s : string) : bool :=
  match s with
  | EmptyString => match st with Outside => true | _ => false end
  | String c s' =>
      match st with
      | Outside =>
          if Ascii.eqb c "%" then keys_only AfterPercent s' else keys_only Outside s'
      | AfterPercent =>
          if Ascii.eqb c "(" then keys_only (InKey false) s' else false
      | InKey seen =>
          if Ascii.eqb c ")"
          then (if seen then keys_only AfterKey s' else false)
          else keys_only (InKey true) s'
      | AfterKey =>
          if Ascii.eqb c "s" then keys_only Outside s' else false
      end
  end.

Definition interpolation_ok (val : string) : bool :=
  keys_only Outside (remove_escaped val).

(** [config.set_main_option(name, value)]: a value that does not pass the
    check raises [ValueError] and the option stays as it was.  The message
    of the error is cut short: the value and the position are left out. *)
Definition set_main_option (config : loc) (name val : string) : M (list Config) unit :=
  λ h, match h !! config with
       | Some c =>
           if interpolation_ok val
           then (Ok tt, <[config := {| main_options := <[name := val]> (main_options c) |}]> h)
           else (Raise (ValueError "invalid interpolation syntax"), h)
       | None => (Raise (OtherError "no such object"), h)
       end.

(** [config] is a reference into the store of configurations;
    [all_plugins] of the manager is its [_all_plugins]. *)
Definition config_migrate (interpolate : gmap string string → string → result string)
    (plugin_manager : PluginManager) (config : loc) : M (list Config) loc :=
  let plugins := values (_all_plugins plugin_manager) in
  let migration_dirs := map get_migration_version_dir plugins in
  version_table ← get_main_option interpolate config "version_table";
  (if decide (version_table = Some "plugins")
   then set_main_option config "version_locations" (PyStr.join " " migration_dirs)
   else mret tt) ;;
  mret config.

(** ** Tables labelled with their plugin *)

(** An object is the dictionary of its attributes; the heap holds the
    objects, a reference is an index into it. *)
Abbreviation object := (gmap string value).
Abbreviation heap := (list object).

(** Positional and keyword arguments of a call *)
Record call_args := {
  positional : list value;
  keywords : list (string * value)
}.

(** [obj.name] *)
Definition getattr (l : loc) (name : string) : M heap value :=
  λ h, match h !! l with
       | Some o =>
           match o !! name with
           | Some v => (Ok v, h)
           | None => (Raise (AttributeError name), h)
           end
       | None => (Raise (OtherError "no such object"), h)
       end.

(** [obj.name = v] *)
Definition setattr (l : loc) (name : string) (v : value) : M heap unit :=
  λ h, match h !! l with
       | Some o => (Ok tt, <[l := <[name := v]> o]> h)
       | None => (Raise (OtherError "no such object"), h)
       end.

(** [x.name = v] for any value [x]: only references carry attributes. *)
Definition value_setattr (x : value) (name : string) (v : value) : M heap unit :=
  match x with
  | VRef l => setattr l name v
  | _ => raise (AttributeError name)
  end.

(** [copy.copy(obj)]: a new object with the same attribute dictionary. *)
Definition copy_copy (l : loc) : M heap loc :=
  λ h, match h !! l with
       | Some o => (Ok (List.length h), (h ++ [o])%list)
       | None => (Raise (OtherError "no such object"), h)
       end.

Section Calls.

(** What the callables of the external libraries do. *)
Variable native : string → call_args → M heap value.

(** Calling [f] with [args].  The closure [Table] calls whatever
    [sqla_instance.Table] is when it runs, so the recursion is bounded by
    [fuel], the depth Python allows. *)
Fixpoint call_func (fuel : nat) (f : func) (args : call_args) : M heap value :=
  match f with
  | FNative name => native name args
  | FPluginTable plugin_name sqla_instance =>
      match fuel with
      | 0 => raise RecursionError
      | S fuel' =>
          callee ← getattr sqla_instance "Table";
          match callee with
          | VFun f' =>
              new_table ← call_func fuel' f' args;
              value_setattr new_table "_plugin" (VStr plugin_name) ;;
              mret new_table
          | _ => raise (TypeError "object is not callable")
          end
      end
  end.

(** Calling the method [name] of [obj] with [args] *)
Definition call_method (fuel : nat) (l : loc) (name : string) (args : call_args)
    : M heap value :=
  callee ← getattr l name;
  match callee with
  | VFun f => call_func fuel f args
  | _ => raise (TypeError "object is not callable")
  end.

End Calls.

(** [db_for_plugin(plugin_name, sqla_instance)]; [default_db] is
    [flaskbb.extensions.db], taken when no instance is given. *)
Definition db_for_plugin (default_db : loc) (plugin_name : string)
    (sqla_instance : option loc) : M heap loc :=
  let sqla_instance := default default_db sqla_instance in
  new_db ← copy_copy sqla_instance;
  setattr new_db "Table" (VFun (FPluginTable plugin_name sqla_instance)) ;;
  mret new_db.

(** ** Sample data *)

Module Sample.

Definition portal : FlaskBBPlugin :=
  {| path := "/srv/flaskbb/plugins/portal"; identifier := "portal";
     settings_key := Some "portal"; module_name := "flaskbb.plugins.portal" |}.

(** A plugin that does not set [settings_key]. *)
Definition plain : FlaskBBPlugin :=
  {| path := "/srv/flaskbb/plugins/plain"; identifier := "plain";
     settings_key := default_settings_key; module_name := "flaskbb.plugins.plain" |}.

(** A plugin installed under a path with a space in it. *)
Definition spaced : FlaskBBPlugin :=
  {| path := "/srv/my forum/plugins/portal"; identifier := "portal";
     settings_key := Some "portal"; module_name := "flaskbb.plugins.portal" |}.

End Sample.

Module SampleApp.

Definition manager : PluginManager :=
  {| plugin_folder := "/srv/flaskbb/plugins"; _plugins := empty;
     _all_plugins := [("portal", Sample.portal); ("plain", Sample.plain)];
     _found_plugins := empty |}.

(** A migration tool whose calls all succeed, and one whose calls all fail. *)
Definition tool_ok (c : migrate_call) (w : world) : result unit := Ok tt.
Definition tool_failing (c : migrate_call) (w : world) : result unit :=
  Raise (OtherError "migration failed").

(** A migration tool that ends every call with [sys.exit]. *)
Definition tool_exiting (c : migrate_call) (w : world) : result unit :=
  Raise (SystemExit "1").

(** A manager with one plugin, installed under a path with a per cent sign
    in it. *)
Definition percent_manager : PluginManager :=
  {| plugin_folder := "/srv/100%/plugins"; _plugins := empty;
     _all_plugins :=
       [("polls", {| path := "/srv/100%/plugins/polls"; identifier := "polls";
                     settings_key := Some "polls";
                     module_name := "flaskbb.plugins.polls" |})];
     _found_plugins := empty |}.

Definition w0 : world := {| g := ∅; migrate_calls := [] |}.

(** The sample configurations have no per cent sign in their values, so
    that nothing is asked of the interpolation; this one gives nothing. *)
Definition interpolate (options : gmap string string) (raw : string) : result string :=
  Raise (OtherError "no interpolation").

(** A configuration for the table of plugin versions, and the one of the
    application itself. *)
Definition plugins_ini : Config :=
  {| main_options := {[ "version_table" := "plugins" ]} |}.
Definition alembic_ini : Config :=
  {| main_options := {[ "version_table" := "alembic_version";
                        "version_locations" := "migrations/versions" ]} |}.

End SampleApp.

Module SampleScan.

(** The class of a plugin whose [info.json] gives the identifier [ident]. *)
Definition plugin_class (ident : string) (key : option string) (module : string)
    : PluginClass :=
  {| class_init := λ plugin_path,
       Ok {| path := plugin_path; identifier := ident; settings_key := key;
             module_name := module |} |}.

(** The class of a plugin whose directory has no [info.json]: the
    constructor fails to open it. *)
Definition unreadable_class : PluginClass :=
  {| class_init := λ plugin_path, Raise IOError |}.

Definition portal_pkg : package :=
  {| pkgname := "flaskbb.plugins.portal";
     pkg_DISABLED := DataIOError;
     pkg___plugin__ := Some "PortalPlugin";
     pkg_attrs := {[ "PortalPlugin" :=
                     AttrClass (plugin_class "portal" (Some "portal")
                                  "flaskbb.plugins.portal") ]};
     pkg_filename := "/srv/flaskbb/plugins/portal/__init__.py" |}.

(** A copy of the portal plugin, switched off by a [DISABLED] file; its
    [info.json] still says [portal]. *)
Definition portal_copy_pkg : package :=
  {| pkgname := "flaskbb.plugins.portal_copy";
     pkg_DISABLED := DataBytes "";
     pkg___plugin__ := Some "PortalPlugin";
     pkg_attrs := {[ "PortalPlugin" :=
                     AttrClass (plugin_class "portal" (Some "portal")
                                  "flaskbb.plugins.portal_copy") ]};
     pkg_filename := "/srv/flaskbb/plugins/portal_copy/__init__.py" |}.

(** A package whose [__plugin__] names a class that it does not define. *)
Definition broken_pkg : package :=
  {| pkgname := "flaskbb.plugins.broken";
     pkg_DISABLED := DataIOError;
     pkg___plugin__ := Some "BrokenPlugin";
     pkg_attrs := ∅;
     pkg_filename := "/srv/flaskbb/plugins/broken/__init__.py" |}.

(** A package that is not a plugin: it has no [__plugin__]. *)
Definition helper_pkg : package :=
  {| pkgname := "flaskbb.plugins.helpers";
     pkg_DISABLED := DataIOError;
     pkg___plugin__ := None;
     pkg_attrs := ∅;
     pkg_filename := "/srv/flaskbb/plugins/helpers/__init__.py" |}.

Definition disabled_pkg : package :=
  {| pkgname := "flaskbb.plugins.archive";
     pkg_DISABLED := DataBytes "";
     pkg___plugin__ := Some "ArchivePlugin";
     pkg_attrs := {[ "ArchivePlugin" :=
                     AttrClass (plugin_class "archive" None "flaskbb.plugins.archive") ]};
     pkg_filename := "/srv/flaskbb/plugins/archive/__init__.py" |}.

(** A package whose [__plugin__] names an attribute that is a string, not
    a class. *)
Definition odd_pkg : package :=
  {| pkgname := "flaskbb.plugins.odd";
     pkg_DISABLED := DataIOError;
     pkg___plugin__ := Some "__name__";
     pkg_attrs := {[ "__name__" := AttrOther "str" ]};
     pkg_filename := "/srv/flaskbb/plugins/odd/__init__.py" |}.

(** A package whose plugin class cannot be instantiated. *)
Definition unreadable_pkg : package :=
  {| pkgname := "flaskbb.plugins.bare";
     pkg_DISABLED := DataIOError;
     pkg___plugin__ := Some "BarePlugin";
     pkg_attrs := {[ "BarePlugin" := AttrClass unreadable_class ]};
     pkg_filename := "/srv/flaskbb/plugins/bare/__init__.py" |}.

Definition fresh_manager : PluginManager :=
  {| plugin_folder := "/srv/flaskbb/plugins"; _plugins := empty;
     _all_plugins := empty; _found_plugins := empty |}.

Definition portal_instance : FlaskBBPlugin :=
  {| path := "/srv/flaskbb/plugins/portal"; identifier := "portal";
     settings_key := Some "portal"; module_name := "flaskbb.plugins.portal" |}.

Definition archive_instance : FlaskBBPlugin :=
  {| path := "/srv/flaskbb/plugins/archive"; identifier := "archive";
     settings_key := None; module_name := "flaskbb.plugins.archive" |}.

End SampleScan.

Module SampleDb.

(** The table constructor of the ORM: a new object that keeps the first
    positional argument as its name. *)
Definition native (name : string) (args : call_args) : M heap value :=
  if String.eqb name "sqlalchemy.Table"
  then λ h, (Ok (VRef (List.length h)),
             (h ++ [ {[ "name" := hd VNone (positional args) ]} ])%list)
  else raise (OtherError "unknown callable").

(** The database object of the application, alone on the heap. *)
Definition db : object :=
  {[ "Table" := VFun (FNative "sqlalchemy.Table"); "session" := VNone ]}.
Definition h0 : heap := [db].

Definition posts_args : call_args :=
  {| positional := [VStr "portal_posts"]; keywords := [] |}.

End SampleDb.

(** ** Uninstalling, and the tables of a plugin *)

(** [uninstallable]; [groups] is the table of [SettingsGroup] as the query
    sees it: under the key of a group, the names of its settings. *)
Definition uninstallable (groups : gmap string (list string)) (self : FlaskBBPlugin)
    : bool :=
  if installable self then
    let group := settings_key self ≫= (groups !!.) in
    match group with
    | Some settings => bool_decide (0 < List.length settings)
    | None => false
    end
  else false.

(** The database behind [db.engine], as far as the helpers below go: the
    names of the tables that exist.  Creating a table that exists fails, and
    so does dropping one that does not. *)
Definition table_exists (table : string) : M (gset string) bool :=
  λ db, (Ok (bool_decide (table ∈ db)), db).

Definition table_create (table : string) : M (gset string) unit :=
  λ db, if decide (table ∈ db)
        then (Raise (OtherError "table already exists"), db)
        else (Ok tt, {[table]} ∪ db).

Definition table_drop (table : string) : M (gset string) unit :=
  λ db, if decide (table ∈ db)
        then (Ok tt, db ∖ {[table]})
        else (Raise (OtherError "no such table"), db).

(** A model is known by the name of its [__table__]. *)
Definition create_table (model : string) : M (gset string) unit :=
  present ← table_exists model;
  if negb present then table_create model else mret tt.

Definition drop_table (model : string) : M (gset string) unit :=
  table_drop model.

Definition create_all_tables (models : list string) : M (gset string) unit :=
  for_each create_table models.

Definition drop_all_tables (models : list string) : M (gset string) unit :=
  for_each drop_table models.

(** ** What a scan gets to *)

(** The packages that the loop of [load_plugins] goes through: all of them
    up to the first that makes it raise, that one included. *)
Fixpoint scanned (pkgs : list package) : list package :=
  match pkgs with
  | [] => []
  | p :: pkgs' =>
      match pkg_raises p with
      | Some _ => [p]
      | None => p :: scanned pkgs'
      end
  end.

(** The last package of [pkgs] whose [__plugin__] is [class_name]. *)
Fixpoint last_named (class_name : string) (pkgs : list package) : option package :=
  match pkgs with
  | [] => None
  | p :: pkgs' =>
      match last_named class_name pkgs' with
      | Some q => Some q
      | None => if decide (pkg___plugin__ p = Some class_name) then Some p else None
      end
  end.

Module SampleTables.

(** The settings groups of a forum: the portal plugin has settings, the
    plugin [empty] has a group without any. *)
Definition groups : gmap string (list string) :=
  {[ "portal" := ["forum_ids"; "recent_topics"]; "empty" := [] ]}.

Definition db0 : gset string := {[ "users"; "forums" ]}.

End SampleTables.

(** * Properties *)

(** ** Strings *)

Example split_example : PyStr.split "/" "a/b//c" = ["a"; "b"; ""; "c"].
Proof. reflexivity. Qed.

Example os_path_join_example :
  PyStr.os_path_join "/srv/plugins" ["portal"; "migration_versions"]
    = "/srv/plugins/portal/migration_versions"
  ∧ PyStr.os_path_join "/srv/plugins/" ["portal"] = "/srv/plugins/portal"
  ∧ PyStr.os_path_join "/srv/plugins" ["/etc"; "passwd"] = "/etc/passwd"
  ∧ PyStr.os_path_join "" ["portal"] = "portal".
Proof. repeat split. Qed.

Example os_path_split_head_example :
  PyStr.os_path_split_head "/srv/plugins/portal/__init__.py" = "/srv/plugins/portal"
  ∧ PyStr.os_path_split_head "/__init__.py" = "/"
  ∧ PyStr.os_path_split_head "__init__.py" = "".
Proof. repeat split. Qed.

Example endswith_example :
  PyStr.endswith "/" "abc/" = true ∧ PyStr.endswith "/" "" = false.
Proof. split; reflexivity. Qed.

Lemma prefix_char c s :
  String.prefix (String c EmptyString) s = true ↔ ∃ s', s = String c s'.
Proof.
  destruct s as [|a s']; simpl.
  - split; [discriminate | intros [? ?]; discriminate].
  - destruct (ascii_dec c a) as [->|Hne].
    + destruct s'; split; eauto.
    + split; [discriminate | intros [? ?]; congruence].
Qed.

(** [c in s] for a string [c] of one character is membership of that
    character. *)
Lemma str_in_char c s :
  PyStr.str_in (String c EmptyString) s = true ↔ PyStr.has_char c s.
Proof.
  unfold PyStr.has_char. induction s as [|a s IH].
  - simpl. split; [discriminate | intros H; inversion H].
  - change (PyStr.str_in (String c EmptyString) (String a s))
      with (String.prefix (String c EmptyString) (String a s)
            || PyStr.str_in (String c EmptyString) s).
    rewrite orb_true_iff, prefix_char, IH. simpl. rewrite elem_of_cons. split.
    + intros [[s' [= -> _]] | H]; auto.
    + intros [-> | H]; eauto.
Qed.

Lemma str_in_char_false c s :
  PyStr.str_in (String c EmptyString) s = false ↔ ¬ PyStr.has_char c s.
Proof.
  rewrite <- str_in_char. destruct (PyStr.str_in _ s); split; congruence.
Qed.

Lemma split_nonempty sep s : PyStr.split sep s ≠ [].
Proof.
  destruct s as [|c s]; simpl; [done|].
  destruct (Ascii.eqb c sep); [done|]. by destruct (PyStr.split sep s).
Qed.

(** Joining the pieces with the separator gives the string back. *)
Lemma join_split sep s :
  PyStr.join (String sep EmptyString) (PyStr.split sep s) = s.
Proof.
  unfold PyStr.join. induction s as [|c s IH]; simpl; [done|].
  destruct (Ascii.eqb_spec c sep) as [->|Hne].
  - pose proof (split_nonempty sep s) as Hs.
    destruct (PyStr.split sep s) as [|w ws]; [done|].
    simpl in *. by rewrite IH.
  - pose proof (split_nonempty sep s) as Hs.
    destruct (PyStr.split sep s) as [|w ws]; [done|].
    destruct ws as [|w' ws]; simpl in *; by rewrite <- IH.
Qed.

(** No piece contains the separator. *)
Lemma split_no_sep sep s w :
  w ∈ PyStr.split sep s → ¬ PyStr.has_char sep w.
Proof.
  unfold PyStr.has_char. revert w. induction s as [|c s IH]; simpl; intros w.
  - intros ->%list_elem_of_singleton. simpl. inversion 1.
  - destruct (Ascii.eqb_spec c sep) as [->|Hne].
    + intros [->|H]%elem_of_cons; [simpl; inversion 1 | by apply IH].
    + pose proof (split_nonempty sep s) as Hs.
      destruct (PyStr.split sep s) as [|w0 ws]; [done|].
      intros [->|H]%elem_of_cons.
      * simpl. intros [?|H]%elem_of_cons; [congruence|].
        apply (IH w0); [left | done].
      * apply IH. by right.
Qed.

(** ** Dictionaries *)

Lemma dict_get_set_eq {V} k (v : V) d : dict_get k (dict_set k v d) = Some v.
Proof.
  induction d as [|[k' v'] d IH]; simpl.
  - by rewrite String.eqb_refl.
  - destruct (String.eqb_spec k k') as [->|Hne]; simpl.
    + by rewrite String.eqb_refl.
    + by destruct (String.eqb_spec k k').
Qed.

Lemma dict_get_set_ne {V} k k' (v : V) d :
  k ≠ k' → dict_get k' (dict_set k v d) = dict_get k' d.
Proof.
  intros Hne. induction d as [|[k0 v0] d IH]; simpl.
  - by destruct (String.eqb_spec k' k); [congruence|].
  - destruct (String.eqb_spec k k0) as [->|Hne0]; simpl.
    + by destruct (String.eqb_spec k' k0); [congruence|].
    + by rewrite IH.
Qed.

(** ** The plugin base class *)

(** C7: [installable] is [True] exactly when [settings_key] is not [None];
    a plugin whose [settings_key] is the default [None] is not installable. *)
Theorem installable_iff_settings_key (self : FlaskBBPlugin) :
  (installable self = true ↔ settings_key self ≠ None) ∧
  (settings_key self = default_settings_key → installable self = false).
Proof.
  unfold installable, default_settings_key.
  destruct (settings_key self); split; try split; congruence.
Qed.

Lemma installable_iff_settings_key_witness :
  installable Sample.portal = true ∧ installable Sample.plain = false.
Proof.
  split.
  - apply (installable_iff_settings_key Sample.portal). discriminate.
  - apply (installable_iff_settings_key Sample.plain). reflexivity.
Defined.

(** An empty [settings_key] is still a key: the test is on [None], not on
    truth. *)
Example installable_empty_key :
  installable {| path := "/p"; identifier := "p"; settings_key := Some "";
                 module_name := "m" |} = true.
Proof. reflexivity. Qed.

Lemma split_length sep (s : string) :
  PyStr.has_char sep s → (2 ≤ List.length (PyStr.split sep s))%nat.
Proof.
  unfold PyStr.has_char. induction s as [|c s IH]; [by inversion 1|].
  simpl. destruct (Ascii.eqb_spec c sep) as [->|Hne].
  - intros _. pose proof (split_nonempty sep s).
    destruct (PyStr.split sep s); [done | simpl; lia].
  - intros [?|H]%elem_of_cons; [congruence|]. specialize (IH H).
    destruct (PyStr.split sep s); simpl in *; lia.
Qed.

(** C9: [resource_filename] splits one name that has a slash in it into its
    components, the pieces between the slashes, joins the components onto
    [self.path], and gives the joined path back as it is, unless it has a
    space in it and neither a double nor a single quote: then it gives it
    back between double quotes. *)
Theorem resource_filename_spec (self : FlaskBBPlugin) (names : list string) :
  (∀ n, names = [n] → PyStr.has_char "/" n →
     resource_fname self names = PyStr.os_path_join (path self) (PyStr.split "/" n)
     ∧ PyStr.join "/" (PyStr.split "/" n) = n
     ∧ Forall (λ w, ¬ PyStr.has_char "/" w) (PyStr.split "/" n)
     ∧ (2 ≤ List.length (PyStr.split "/" n))%nat) ∧
  ((∀ n, names = [n] → ¬ PyStr.has_char "/" n) →
     resource_fname self names = PyStr.os_path_join (path self) names) ∧
  let fname := resource_fname self names in
  (PyStr.has_char " " fname ∧ ¬ PyStr.has_char "034" fname ∧ ¬ PyStr.has_char "'" fname →
     resource_filename self names = PyStr.dquote +:+ fname +:+ PyStr.dquote) ∧
  (¬ (PyStr.has_char " " fname ∧ ¬ PyStr.has_char "034" fname ∧ ¬ PyStr.has_char "'" fname) →
     resource_filename self names = fname).
Proof.
  split; [|split].
  - intros n -> Hn. split; [|split; [|split]].
    + unfold resource_fname. apply (str_in_char "/" n) in Hn. by rewrite Hn.
    + apply join_split.
    + apply Forall_forall. intros w Hw. by apply (split_no_sep "/" n).
    + by apply split_length.
  - intros Hn. unfold resource_fname.
    destruct names as [|n [|n' names]]; try done.
    specialize (Hn n eq_refl). apply (str_in_char_false "/" n) in Hn. by rewrite Hn.
  - intros fname. unfold resource_filename. fold fname.
    pose proof (str_in_char " " fname) as Hsp.
    pose proof (str_in_char "034" fname) as Hdq.
    pose proof (str_in_char "'" fname) as Hsq.
    change (String "034" EmptyString) with PyStr.dquote in Hdq.
    change (String "'" EmptyString) with PyStr.squote in Hsq.
    destruct (PyStr.str_in " " fname), (PyStr.str_in PyStr.dquote fname),
      (PyStr.str_in PyStr.squote fname); simpl; split; try done;
      intros H; exfalso; intuition congruence.
Qed.

Lemma resource_filename_spec_witness :
  resource_fname Sample.portal ["/etc/passwd"]
    = "/srv/flaskbb/plugins/portal/etc/passwd"
  ∧ PyStr.split "/" "/etc/passwd" = [""; "etc"; "passwd"]
  ∧ resource_fname Sample.portal ["static//css"]
    = "/srv/flaskbb/plugins/portal/static/css"
  ∧ resource_filename Sample.spaced ["static/style.css"]
    = PyStr.dquote +:+ "/srv/my forum/plugins/portal/static/style.css" +:+ PyStr.dquote
  ∧ resource_filename Sample.portal ["migration_versions"]
    = "/srv/flaskbb/plugins/portal/migration_versions".
Proof.
  pose proof (resource_filename_spec Sample.portal ["/etc/passwd"]) as (Habs & _).
  pose proof (resource_filename_spec Sample.portal ["static//css"]) as (Hdbl & _).
  pose proof (resource_filename_spec Sample.spaced ["static/style.css"]) as (_ & _ & H3 & _).
  pose proof (resource_filename_spec Sample.portal ["migration_versions"]) as (_ & H2 & _ & H4).
  split; [|split; [|split; [|split]]].
  - destruct (Habs "/etc/passwd" eq_refl) as (-> & _); [|reflexivity].
    apply str_in_char. reflexivity.
  - reflexivity.
  - destruct (Hdbl "static//css" eq_refl) as (-> & _); [|reflexivity].
    apply str_in_char. reflexivity.
  - rewrite H3; [reflexivity|].
    split; [|split]; first [apply str_in_char | apply str_in_char_false]; reflexivity.
  - rewrite H4, H2; [reflexivity| |].
    + intros n [= <-]. apply str_in_char_false. reflexivity.
    + intros [Hsp _]. apply str_in_char in Hsp. discriminate.
Defined.

(** ** Upgrading and downgrading *)

Section MigrationToolFacts.

Variable tool : migrate_call → world → result unit.

Lemma flask_migrate_run c w :
  flask_migrate tool c w
  = (tool c w, {| g := g w; migrate_calls := (migrate_calls w ++ [c])%list |}).
Proof. reflexivity. Qed.

(** C5: with a [settings_key] that is not [None], [upgrade_database] calls
    the tool's upgrade, and [downgrade_database] its downgrade, with the
    directory [_migration_environment] under the plugin folder and the
    revision [settings_key + '@' + target]; the target is ['head'] for an
    upgrade and ['base'] for a downgrade when none is given. *)
Theorem upgrade_downgrade_database_spec (plugin_manager : PluginManager)
    (self : FlaskBBPlugin) (key : string) (target : option string) (w : world) :
  settings_key self = Some key →
  let directory :=
    PyStr.os_path_join (plugin_folder plugin_manager) ["_migration_environment"] in
  let up := Upgrade directory (key +:+ "@" +:+ default "head" target) in
  let down := Downgrade directory (key +:+ "@" +:+ default "base" target) in
  upgrade_database tool plugin_manager self target w
    = (tool up w, {| g := g w; migrate_calls := (migrate_calls w ++ [up])%list |})
  ∧ downgrade_database tool plugin_manager self target w
    = (tool down w, {| g := g w; migrate_calls := (migrate_calls w ++ [down])%list |})
  ∧ (plugin_folder plugin_manager ≠ "" →
     PyStr.endswith "/" (plugin_folder plugin_manager) = false →
     directory = plugin_folder plugin_manager +:+ "/" +:+ "_migration_environment").
Proof.
  intros Hkey directory up down. split; [|split].
  - unfold upgrade_database. rewrite Hkey. reflexivity.
  - unfold downgrade_database. rewrite Hkey. reflexivity.
  - intros Hne Hend. unfold directory, PyStr.os_path_join, PyStr.join_step. simpl.
    rewrite Hend. destruct (String.eqb_spec (plugin_folder plugin_manager) ""); done.
Qed.

(** Without a [settings_key] the revision cannot be built and the tool is
    not called. *)
Lemma upgrade_database_no_key plugin_manager self target w :
  settings_key self = None →
  ∃ msg, upgrade_database tool plugin_manager self target w = (Raise (TypeError msg), w).
Proof. intros Hkey. unfold upgrade_database. rewrite Hkey. by eexists. Qed.

End MigrationToolFacts.

Lemma upgrade_downgrade_database_spec_witness :
  upgrade_database SampleApp.tool_ok SampleApp.manager Sample.portal None SampleApp.w0
    = (Ok tt, {| g := ∅; migrate_calls :=
         [Upgrade "/srv/flaskbb/plugins/_migration_environment" "portal@head"] |})
  ∧ downgrade_database SampleApp.tool_ok SampleApp.manager Sample.portal (Some "1a2b")
      SampleApp.w0
    = (Ok tt, {| g := ∅; migrate_calls :=
         [Downgrade "/srv/flaskbb/plugins/_migration_environment" "portal@1a2b"] |}).
Proof.
  split.
  - apply (upgrade_downgrade_database_spec SampleApp.tool_ok SampleApp.manager
             Sample.portal "portal" None SampleApp.w0). reflexivity.
  - apply (upgrade_downgrade_database_spec SampleApp.tool_ok SampleApp.manager
             Sample.portal "portal" (Some "1a2b") SampleApp.w0). reflexivity.
Defined.

(** ** The configuration callback *)

Lemma remove_escaped_plain (s : string) :
  ¬ PyStr.has_char "%" s → remove_escaped s = s.
Proof.
  unfold PyStr.has_char. induction s as [|c s IH]; intros Hs; [done|].
  destruct s as [|c' s]; [done|].
  change (remove_escaped (String c (String c' s)))
    with (if Ascii.eqb c "%" && Ascii.eqb c' "%"
          then remove_escaped s
          else String c (remove_escaped (String c' s))).
  destruct (Ascii.eqb_spec c "%") as [->|Hc]; [destruct Hs; left|].
  cbn [andb]. rewrite IH; [done|]. intros H. apply Hs. by right.
Qed.

Lemma keys_only_plain (s : string) :
  ¬ PyStr.has_char "%" s → keys_only Outside s = true.
Proof.
  unfold PyStr.has_char. induction s as [|c s IH]; intros Hs; [done|].
  simpl in *. destruct (Ascii.eqb_spec c "%") as [->|Hc]; [destruct Hs; left|].
  apply IH. intros H. apply Hs. by right.
Qed.

(** A value without a per cent sign passes the check. *)
Lemma interpolation_ok_plain (val : string) :
  ¬ PyStr.has_char "%" val → interpolation_ok val = true.
Proof.
  intros H. unfold interpolation_ok. rewrite remove_escaped_plain by done.
  by apply keys_only_plain.
Qed.

Example interpolation_ok_examples :
  interpolation_ok "/srv/plugins/portal/migration_versions" = true
  ∧ interpolation_ok "%(here)s/versions" = true
  ∧ interpolation_ok "100%%" = true
  ∧ interpolation_ok "100%" = false
  ∧ interpolation_ok "%(%%)s" = false
  ∧ interpolation_ok "%()s" = false
  ∧ interpolation_ok "%(here)" = false.
Proof. repeat split. Qed.

Section ConfigFacts.

Variable interpolate : gmap string string → string → result string.

Lemma get_main_option_run config name (h : list Config) c :
  h !! config = Some c →
  get_main_option interpolate config name h
  = (match main_options c !! name with
     | None => Ok None
     | Some raw =>
         if PyStr.str_in "%" raw
         then match interpolate (main_options c) raw with
              | Ok v => Ok (Some v)
              | Raise e => Raise e
              end
         else Ok (Some raw)
     end, h).
Proof.
  intros Hc. unfold get_main_option. rewrite Hc.
  destruct (main_options c !! name) as [raw|]; [|done].
  destruct (PyStr.str_in "%" raw); [|done].
  by destruct (interpolate (main_options c) raw).
Qed.

(** A stored value without a per cent sign is read as it is. *)
Lemma get_main_option_plain config name (h : list Config) c raw :
  h !! config = Some c → main_options c !! name = Some raw →
  ¬ PyStr.has_char "%" raw →
  get_main_option interpolate config name h = (Ok (Some raw), h).
Proof.
  intros Hc Hraw Hplain. rewrite (get_main_option_run config name h c Hc), Hraw.
  apply str_in_char_false in Hplain. by rewrite Hplain.
Qed.

(** [config_migrate] on a configuration that is there. *)
Lemma config_migrate_run (plugin_manager : PluginManager) (config : loc)
    (h : list Config) (c : Config) :
  h !! config = Some c →
  let locations :=
    PyStr.join " " (map get_migration_version_dir (values (_all_plugins plugin_manager))) in
  config_migrate interpolate plugin_manager config h
  = match (get_main_option interpolate config "version_table" h).1 with
    | Raise e => (Raise e, h)
    | Ok version_table =>
        if decide (version_table = Some "plugins")
        then if interpolation_ok locations
             then (Ok config,
                   <[config := {| main_options :=
                        <["version_locations" := locations]> (main_options c) |}]> h)
             else (Raise (ValueError "invalid interpolation syntax"), h)
        else (Ok config, h)
    end.
Proof.
  intros Hc locations.
  unfold config_migrate, mbind, M_bind, mret, M_ret. fold locations.
  rewrite (get_main_option_run config "version_table" h c Hc). simpl.
  destruct (match main_options c !! "version_table" with Some _ => _ | None => _ end)
    as [vt|e]; [|done].
  case_decide; [|done]. unfold set_main_option. rewrite Hc.
  by destruct (interpolation_ok locations).
Qed.

(** C6, amended: when [version_table] reads as ['plugins'] and the
    configuration accepts the migration version directories of all the
    plugins of the manager, joined with spaces, [config_migrate] sets
    [version_locations] to that value and returns the configuration it was
    given; when the configuration refuses the value, it raises [ValueError]
    and changes nothing; when [version_table] reads as anything else, or is
    not set, it returns the configuration and changes nothing.  A
    [version_table] stored as [plugins] reads as ['plugins']. *)
Theorem config_migrate_spec (plugin_manager : PluginManager) (config : loc)
    (h : list Config) (c : Config) :
  h !! config = Some c →
  let locations :=
    PyStr.join " " (map get_migration_version_dir (values (_all_plugins plugin_manager))) in
  let read := (get_main_option interpolate config "version_table" h).1 in
  (read = Ok (Some "plugins") → interpolation_ok locations = true →
     config_migrate interpolate plugin_manager config h
     = (Ok config,
        <[config := {| main_options := <["version_locations" := locations]> (main_options c) |}]> h))
  ∧ (read = Ok (Some "plugins") → interpolation_ok locations = false →
     ∃ msg, config_migrate interpolate plugin_manager config h = (Raise (ValueError msg), h))
  ∧ (∀ version_table, read = Ok version_table → version_table ≠ Some "plugins" →
     config_migrate interpolate plugin_manager config h = (Ok config, h))
  ∧ (∀ e, read = Raise e →
     config_migrate interpolate plugin_manager config h = (Raise e, h))
  ∧ (main_options c !! "version_table" = Some "plugins" → read = Ok (Some "plugins"))
  ∧ (main_options c !! "version_table" = None → read = Ok None).
Proof.
  intros Hc locations read.
  rewrite (config_migrate_run plugin_manager config h c Hc).
  fold locations read. split; [|split; [|split; [|split; [|split]]]].
  - intros -> Hok. by rewrite decide_True, Hok.
  - intros -> Hok. rewrite decide_True, Hok by done. by eexists.
  - intros vt -> Hvt. by rewrite decide_False.
  - by intros e ->.
  - intros Hvt. unfold read.
    rewrite (get_main_option_plain config "version_table" h c "plugins"); try done.
    intros H. apply str_in_char in H. discriminate.
  - intros Hvt. unfold read.
    by rewrite (get_main_option_run config "version_table" h c Hc), Hvt.
Qed.

End ConfigFacts.

(** The claim C6 as it is written fails for a plugin path with a per cent
    sign in it: [version_table] is ['plugins'], but the configuration
    refuses the value, so that [config_migrate] raises [ValueError],
    returns nothing and sets nothing. *)
Lemma config_migrate_percent :
  main_options SampleApp.plugins_ini !! "version_table" = Some "plugins"
  ∧ get_main_option SampleApp.interpolate 0 "version_table" [SampleApp.plugins_ini]
    = (Ok (Some "plugins"), [SampleApp.plugins_ini])
  ∧ config_migrate SampleApp.interpolate SampleApp.percent_manager 0 [SampleApp.plugins_ini]
    = (Raise (ValueError "invalid interpolation syntax"), [SampleApp.plugins_ini]).
Proof. repeat split. Qed.

Lemma config_migrate_spec_witness :
  config_migrate SampleApp.interpolate SampleApp.manager 0
    [SampleApp.plugins_ini; SampleApp.alembic_ini]
    = (Ok 0,
       [ {| main_options := <["version_locations" :=
              "/srv/flaskbb/plugins/portal/migration_versions /srv/flaskbb/plugins/plain/migration_versions"]>
              (main_options SampleApp.plugins_ini) |};
         SampleApp.alembic_ini ])
  ∧ (∃ msg, config_migrate SampleApp.interpolate SampleApp.percent_manager 0
              [SampleApp.plugins_ini]
            = (Raise (ValueError msg), [SampleApp.plugins_ini]))
  ∧ config_migrate SampleApp.interpolate SampleApp.manager 1
      [SampleApp.plugins_ini; SampleApp.alembic_ini]
    = (Ok 1, [SampleApp.plugins_ini; SampleApp.alembic_ini]).
Proof.
  split; [|split].
  - apply (config_migrate_spec SampleApp.interpolate SampleApp.manager 0
             [SampleApp.plugins_ini; SampleApp.alembic_ini] SampleApp.plugins_ini eq_refl);
      reflexivity.
  - apply (config_migrate_spec SampleApp.interpolate SampleApp.percent_manager 0
             [SampleApp.plugins_ini] SampleApp.plugins_ini eq_refl); reflexivity.
  - apply (config_migrate_spec SampleApp.interpolate SampleApp.manager 1
             [SampleApp.plugins_ini; SampleApp.alembic_ini] SampleApp.alembic_ini eq_refl)
      with (version_table := Some "alembic_version").
    + reflexivity.
    + discriminate.
Defined.

(** ** The [plugin_name_migrate] context *)

Lemma set_g_delete_absent name w :
  g w !! name = None → set_g (delete name) w = w.
Proof.
  intros H. destruct w as [gw calls]. unfold set_g. simpl in *.
  f_equal. by apply delete_id.
Qed.

(** Entering the context: the statements before the [yield]. *)
Lemma plugin_name_migrate_enter n w :
  before_yield (plugin_name_migrate n) w = (Ok tt, set_g (insert "plugin_name" n) w).
Proof. reflexivity. Qed.

(** C4: entering [plugin_name_migrate(n)] sets [g.plugin_name] to [n] and
    nothing else, the block runs in that state, and when the block ends
    without an exception [plugin_name] is no longer an attribute of [g]. *)
Theorem plugin_name_migrate_normal_exit {A} (n : value) (body : M world A)
    (w w2 : world) (a : A) :
  let w1 := set_g (insert "plugin_name" n) w in
  body w1 = (Ok a, w2) →
  before_yield (plugin_name_migrate n) w = (Ok tt, w1)
  ∧ g w1 !! "plugin_name" = Some n
  ∧ (∀ name, name ≠ "plugin_name" → g w1 !! name = g w !! name)
  ∧ snd (with_stmt (plugin_name_migrate n) body w) = set_g (delete "plugin_name") w2
  ∧ g (snd (with_stmt (plugin_name_migrate n) body w)) !! "plugin_name" = None
  ∧ (is_Some (g w2 !! "plugin_name") →
     with_stmt (plugin_name_migrate n) body w = (Ok a, set_g (delete "plugin_name") w2)).
Proof.
  intros w1 Hbody.
  assert (Hrun : snd (with_stmt (plugin_name_migrate n) body w)
                 = set_g (delete "plugin_name") w2).
  { unfold with_stmt. rewrite plugin_name_migrate_enter. fold w1. rewrite Hbody.
    simpl. unfold g_delattr.
    destruct (g w2 !! "plugin_name") eqn:Hpn; simpl; [done|].
    by rewrite set_g_delete_absent. }
  split; [done|]. split; [apply lookup_insert_eq|].
  split; [intros name Hne; simpl; by rewrite lookup_insert_ne|].
  split; [done|]. split.
  - rewrite Hrun. simpl. apply lookup_delete_eq.
  - intros [v Hv]. unfold with_stmt. rewrite plugin_name_migrate_enter. fold w1.
    rewrite Hbody. simpl. unfold g_delattr. by rewrite Hv.
Qed.

Lemma plugin_name_migrate_normal_exit_witness :
  with_stmt (plugin_name_migrate (VStr "flaskbb.plugins.portal"))
    (g_getattr "plugin_name") SampleApp.w0
  = (Ok (VStr "flaskbb.plugins.portal"), SampleApp.w0).
Proof.
  destruct (plugin_name_migrate_normal_exit (VStr "flaskbb.plugins.portal")
              (g_getattr "plugin_name") SampleApp.w0
              (set_g (insert "plugin_name" (VStr "flaskbb.plugins.portal")) SampleApp.w0)
              (VStr "flaskbb.plugins.portal") eq_refl)
    as (_ & _ & _ & _ & _ & Hrun).
  rewrite Hrun; [reflexivity | by eexists].
Defined.

(** C8: when the block raises, leaving the context changes nothing: the
    exception goes on and [g] is as the block left it, so [plugin_name] is
    still [n] unless the block itself has changed it. *)
Theorem plugin_name_migrate_exception_leaks {A} (n : value) (body : M world A)
    (w w2 : world) (e : exn) :
  let w1 := set_g (insert "plugin_name" n) w in
  body w1 = (Raise e, w2) →
  with_stmt (plugin_name_migrate n) body w = (Raise e, w2)
  ∧ (g w2 !! "plugin_name" = g w1 !! "plugin_name" →
     g (snd (with_stmt (plugin_name_migrate n) body w)) !! "plugin_name" = Some n).
Proof.
  intros w1 Hbody.
  assert (Hrun : with_stmt (plugin_name_migrate n) body w = (Raise e, w2)).
  { unfold with_stmt. rewrite plugin_name_migrate_enter. fold w1. by rewrite Hbody. }
  split; [done|]. intros Hsame. rewrite Hrun. simpl. rewrite Hsame.
  apply lookup_insert_eq.
Qed.

Lemma plugin_name_migrate_exception_leaks_witness :
  with_stmt (plugin_name_migrate (VStr "flaskbb.plugins.portal"))
    (raise (OtherError "migration failed") : M world unit) SampleApp.w0
  = (Raise (OtherError "migration failed"),
     {| g := {[ "plugin_name" := VStr "flaskbb.plugins.portal" ]}; migrate_calls := [] |}).
Proof.
  apply (plugin_name_migrate_exception_leaks (VStr "flaskbb.plugins.portal")
           (raise (OtherError "migration failed")) SampleApp.w0
           (set_g (insert "plugin_name" (VStr "flaskbb.plugins.portal")) SampleApp.w0)
           (OtherError "migration failed") eq_refl).
Defined.

(** The two exits at work in [FlaskBBPlugin.migrate]: when the tool
    succeeds the scope is gone afterwards, when both of its calls fail the
    scope stays behind. *)
Lemma migrate_cleans_up plugin_manager self w :
  g (snd (migrate SampleApp.tool_ok plugin_manager self w)) !! "plugin_name" = None.
Proof.
  unfold migrate, with_stmt. simpl. unfold g_delattr. simpl.
  rewrite lookup_insert_eq. simpl. apply lookup_delete_eq.
Qed.

Lemma migrate_failure_leaks plugin_manager self w :
  g (snd (migrate SampleApp.tool_failing plugin_manager self w)) !! "plugin_name"
  = Some (VStr (module_name self)).
Proof.
  unfold migrate, with_stmt. simpl. apply lookup_insert_eq.
Qed.

(** ** Scanning the plugin folder *)

(** The manager as [load_plugins] has it when the loop starts. *)
Lemma load_plugins_unfold pkgs self :
  load_plugins pkgs self
  = match for_each scan_package pkgs
            (set__all_plugins empty (set__plugins empty self)) with
    | (Ok _, self') => (Ok (_found_plugins self'), self')
    | (Raise e, self') => (Raise e, self')
    end.
Proof.
  unfold load_plugins, mbind, M_bind, modify, get_state, mret, M_ret.
  by destruct (for_each scan_package pkgs _) as [[[]|e] self'].
Qed.

Lemma for_each_app {S A} (f : A → M S unit) (l1 l2 : list A) (s : S) :
  for_each f (l1 ++ l2)%list s
  = match for_each f l1 s with
    | (Ok _, s1) => for_each f l2 s1
    | (Raise e, s1) => (Raise e, s1)
    end.
Proof.
  revert s. induction l1 as [|x l1 IH]; intros s; simpl; [done|].
  unfold mbind, M_bind. destruct (f x s) as [[[]|e] s1]; [apply IH | done].
Qed.

Lemma for_each_cons {S A} (f : A → M S unit) (x : A) (l : list A) (s : S) :
  for_each f (x :: l) s
  = match f x s with
    | (Ok _, s1) => for_each f l s1
    | (Raise e, s1) => (Raise e, s1)
    end.
Proof. reflexivity. Qed.

(** The body of the loop, by what the package has to offer. *)
Lemma scan_package_run p self :
  scan_package p self
  = match pkg___plugin__ p, pkg_result p with
    | Some class_name, Some (Ok plugin_instance) =>
        (Ok tt,
         {| plugin_folder := plugin_folder self;
            _plugins := if is_enabled p
                        then dict_set (identifier plugin_instance) plugin_instance
                               (_plugins self)
                        else _plugins self;
            _all_plugins :=
              dict_set (identifier plugin_instance) plugin_instance (_all_plugins self);
            _found_plugins := dict_set class_name (pkgname p) (_found_plugins self) |})
    | Some class_name, Some (Raise e) =>
        (Raise e,
         set__found_plugins (dict_set class_name (pkgname p) (_found_plugins self)) self)
    | _, _ => (Ok tt, self)
    end.
Proof.
  unfold scan_package, pkg_result, mbind at 1, M_bind, modify, mret, M_ret, raise.
  destruct (pkg___plugin__ p) as [cn|]; [|done]. simpl.
  destruct (pkg_attrs p !! cn) as [[cls|ty]|]; try done.
  destruct (class_init cls _) as [inst|e]; [|done].
  unfold mbind, M_bind. by destruct (is_enabled p).
Qed.

(** The ways through the body of the loop. *)
Lemma scan_package_no_plugin p self :
  pkg___plugin__ p = None → scan_package p self = (Ok tt, self).
Proof. intros H. unfold scan_package. by rewrite H. Qed.

Lemma scan_package_missing_class p class_name self :
  pkg___plugin__ p = Some class_name →
  pkg_attrs p !! class_name = None →
  scan_package p self
  = (Raise (PluginError (plugin_error_message class_name)),
     set__found_plugins (dict_set class_name (pkgname p) (_found_plugins self)) self).
Proof.
  intros H1 H2. rewrite scan_package_run. unfold pkg_result.
  by rewrite H1; simpl; rewrite H2.
Qed.

Lemma scan_package_not_callable p class_name type_name self :
  pkg___plugin__ p = Some class_name →
  pkg_attrs p !! class_name = Some (AttrOther type_name) →
  scan_package p self
  = (Raise (TypeError (not_callable_message type_name)),
     set__found_plugins (dict_set class_name (pkgname p) (_found_plugins self)) self).
Proof.
  intros H1 H2. rewrite scan_package_run. unfold pkg_result.
  by rewrite H1; simpl; rewrite H2.
Qed.

Lemma scan_package_valid p class_name plugin_class plugin_instance self :
  pkg___plugin__ p = Some class_name →
  pkg_attrs p !! class_name = Some (AttrClass plugin_class) →
  class_init plugin_class (PyStr.os_path_split_head (pkg_filename p))
    = Ok plugin_instance →
  scan_package p self
  = (Ok tt,
     {| plugin_folder := plugin_folder self;
        _plugins := if is_enabled p
                    then dict_set (identifier plugin_instance) plugin_instance (_plugins self)
                    else _plugins self;
        _all_plugins :=
          dict_set (identifier plugin_instance) plugin_instance (_all_plugins self);
        _found_plugins := dict_set class_name (pkgname p) (_found_plugins self) |}).
Proof.
  intros H1 H2 H3. rewrite scan_package_run. unfold pkg_result.
  by rewrite H1; simpl; rewrite H2, H3.
Qed.



(** The state that one package leaves behind, whatever the way through
    the loop body. *)
Lemma scan_package_state p self :
  (scan_package p self).2
  = match pkg___plugin__ p with
    | None => self
    | Some class_name =>
        let found := dict_set class_name (pkgname p) (_found_plugins self) in
        match pkg_instance p with
        | None => set__found_plugins found self
        | Some inst =>
            {| plugin_folder := plugin_folder self;
               _plugins := if is_enabled p
                           then dict_set (identifier inst) inst (_plugins self)
                           else _plugins self;
               _all_plugins := dict_set (identifier inst) inst (_all_plugins self);
               _found_plugins := found |}
        end
    end.
Proof.
  rewrite scan_package_run. unfold pkg_instance, pkg_result.
  destruct (pkg___plugin__ p) as [cn|]; [|done]. simpl.
  by destruct (match pkg_attrs p !! cn with Some _ => _ | None => _ end) as [i|e].
Qed.

(** How one package ends. *)
Lemma scan_package_outcome p self :
  (scan_package p self).1
  = match pkg_raises p with
    | Some e => Raise e
    | None => Ok tt
    end.
Proof.
  rewrite scan_package_run. unfold pkg_raises, pkg_result.
  destruct (pkg___plugin__ p) as [cn|]; [|done]. simpl.
  by destruct (match pkg_attrs p !! cn with Some _ => _ | None => _ end) as [i|e].
Qed.

Lemma for_each_invariant {S A} (f : A → M S unit) (I : S → Prop) (l : list A) (s : S) :
  (∀ x s, x ∈ l → I s → I (f x s).2) → I s → I (for_each f l s).2.
Proof.
  revert s. induction l as [|x l IH]; intros s Hstep Hs; [done|].
  rewrite for_each_cons.
  pose proof (Hstep x s (list_elem_of_here x l) Hs) as Hx.
  destruct (f x s) as [[[]|e] s1]; simpl in *; [|done].
  apply IH; [|done]. intros y s' Hy. apply Hstep. by right.
Qed.




(** The loop gets through the packages of which none raises. *)
Lemma for_each_scan_returns pkgs self :
  Forall (λ p, pkg_raises p = None) pkgs →
  ∃ self', for_each scan_package pkgs self = (Ok tt, self').
Proof.
  intros Hall. revert self. induction Hall as [|p pkgs Hp _ IH]; intros self.
  - by eexists.
  - rewrite for_each_cons. pose proof (scan_package_outcome p self) as Ho.
    rewrite Hp in Ho. destruct (scan_package p self) as [r s1]. simpl in Ho.
    subst r. apply IH.
Qed.

Lemma for_each_scan_returned pkgs self self' :
  for_each scan_package pkgs self = (Ok tt, self') →
  Forall (λ p, pkg_raises p = None) pkgs.
Proof.
  revert self. induction pkgs as [|p pkgs IH]; intros self Hrun; [constructor|].
  rewrite for_each_cons in Hrun. pose proof (scan_package_outcome p self) as Ho.
  destruct (scan_package p self) as [r s1]. simpl in Ho. subst r.
  destruct (pkg_raises p) as [e|] eqn:Hp; [done|].
  constructor; [done | by eapply IH].
Qed.

(** The loop stops at the first package that raises, with what it raises. *)
Lemma for_each_scan_raises pre p post e self :
  Forall (λ q, pkg_raises q = None) pre →
  pkg_raises p = Some e →
  ∃ self', for_each scan_package (pre ++ p :: post)%list self = (Raise e, self').
Proof.
  intros Hpre Hp. rewrite for_each_app.
  destruct (for_each_scan_returns pre self Hpre) as [s1 ->].
  rewrite for_each_cons. pose proof (scan_package_outcome p s1) as Ho.
  rewrite Hp in Ho. destruct (scan_package p s1) as [r s2]. simpl in Ho.
  subst r. by eexists.
Qed.


Lemma load_plugins_final_state pkgs self :
  (load_plugins pkgs self).2
  = (for_each scan_package pkgs (set__all_plugins empty (set__plugins empty self))).2.
Proof.
  rewrite load_plugins_unfold. by destruct (for_each scan_package pkgs _) as [[[]|e] s].
Qed.

(** The claim C3 as it is written fails in two ways.  A package that names
    a missing class does not make [load_plugins] raise [PluginError] when a
    package scanned before it raises something else, here the constructor
    that finds no [info.json]; and a name under which the package has
    something else than a class gives [TypeError], since only the lookup of
    the name is guarded. *)
Lemma load_plugins_other_errors :
  names_no_class SampleScan.broken_pkg
  ∧ SampleScan.broken_pkg ∈ [SampleScan.unreadable_pkg; SampleScan.broken_pkg]
  ∧ (load_plugins [SampleScan.unreadable_pkg; SampleScan.broken_pkg]
       SampleScan.fresh_manager).1 = Raise IOError
  ∧ names_no_class SampleScan.odd_pkg
  ∧ (load_plugins [SampleScan.odd_pkg] SampleScan.fresh_manager).1
    = Raise (TypeError "'str' object is not callable").
Proof.
  split; [|split; [|split; [|split]]].
  - exists "BrokenPlugin". split; [done|]. intros cls. by vm_compute.
  - right. left.
  - reflexivity.
  - exists "__name__". split; [done|]. intros cls. by vm_compute.
  - reflexivity.
Qed.

(** C3, amended: a package without [__plugin__] is passed over: the loop
    body returns and leaves the manager as it was, so that the scan goes as
    if the package were not there; and a package that sets [__plugin__] to
    a name under which it has no attribute makes [load_plugins] raise
    [PluginError] when the scan gets to it, that is when no package scanned
    before it raises. *)
Theorem load_plugins_skips_or_raises :
  (∀ p self, pkg___plugin__ p = None → scan_package p self = (Ok tt, self))
  ∧ (∀ pre p post self, pkg___plugin__ p = None →
       load_plugins (pre ++ p :: post)%list self = load_plugins (pre ++ post)%list self)
  ∧ (∀ pkgs self, Forall (λ p, pkg___plugin__ p = None) pkgs →
       load_plugins pkgs self
       = (Ok (_found_plugins self), set__all_plugins empty (set__plugins empty self)))
  ∧ (∀ pre p post self class_name,
       Forall (λ q, pkg_raises q = None) pre →
       pkg___plugin__ p = Some class_name →
       pkg_attrs p !! class_name = None →
       ∃ self',
         load_plugins (pre ++ p :: post)%list self
         = (Raise (PluginError (plugin_error_message class_name)), self')).
Proof.
  split; [apply scan_package_no_plugin|]. split; [|split].
  - intros pre p post self Hp. rewrite !load_plugins_unfold, !for_each_app.
    destruct (for_each scan_package pre _) as [[[]|e] s1]; [|done].
    by rewrite for_each_cons, scan_package_no_plugin.
  - intros pkgs self Hall. rewrite load_plugins_unfold.
    assert (∀ s, for_each scan_package pkgs s = (Ok tt, s)) as ->; [|done].
    induction Hall as [|p pkgs Hp _ IH]; intros s; [done|].
    rewrite for_each_cons, scan_package_no_plugin by done. apply IH.
  - intros pre p post self cn Hpre Hcn Hmiss. rewrite load_plugins_unfold.
    destruct (for_each_scan_raises pre p post
                (PluginError (plugin_error_message cn))
                (set__all_plugins empty (set__plugins empty self)) Hpre)
      as (self' & ->); [|by exists self'].
    unfold pkg_raises, pkg_result. by rewrite Hcn; simpl; rewrite Hmiss.
Qed.

Lemma load_plugins_skips_or_raises_witness :
  load_plugins [SampleScan.helper_pkg; SampleScan.portal_pkg] SampleScan.fresh_manager
    = load_plugins [SampleScan.portal_pkg] SampleScan.fresh_manager
  ∧ load_plugins [SampleScan.helper_pkg] SampleScan.fresh_manager
    = (Ok [], SampleScan.fresh_manager)
  ∧ ∃ self',
      load_plugins [SampleScan.portal_pkg; SampleScan.broken_pkg] SampleScan.fresh_manager
      = (Raise (PluginError (plugin_error_message "BrokenPlugin")), self').
Proof.
  destruct load_plugins_skips_or_raises as (_ & Hskip & Hnone & Hraise).
  split; [|split].
  - apply (Hskip [] SampleScan.helper_pkg [SampleScan.portal_pkg]). reflexivity.
  - apply (Hnone [SampleScan.helper_pkg]). repeat constructor.
  - apply (Hraise [SampleScan.portal_pkg] SampleScan.broken_pkg []
             SampleScan.fresh_manager "BrokenPlugin").
    + apply Forall_cons_2; [reflexivity | apply Forall_nil_2].
    + reflexivity.
    + by vm_compute.
Defined.




(** ** Tables labelled with their plugin *)

Lemma copy_copy_run (h : heap) l o :
  h !! l = Some o → copy_copy l h = (Ok (List.length h), (h ++ [o])%list).
Proof. intros H. unfold copy_copy. by rewrite H. Qed.

Lemma setattr_last (h : heap) o name v :
  setattr (List.length h) name v (h ++ [o])%list = (Ok tt, (h ++ [<[name := v]> o])%list).
Proof.
  unfold setattr. rewrite list_lookup_middle by done.
  rewrite insert_app_r_alt by done. by rewrite Nat.sub_diag.
Qed.

(** What [db_for_plugin] does to the heap: one object is added, the copy,
    with the closure as its [Table]. *)
Lemma db_for_plugin_run default_db plugin_name sqla_instance (h : heap) o :
  h !! default default_db sqla_instance = Some o →
  db_for_plugin default_db plugin_name sqla_instance h
  = (Ok (List.length h),
     (h ++ [<["Table" := VFun (FPluginTable plugin_name
                                  (default default_db sqla_instance))]> o])%list).
Proof.
  intros H. unfold db_for_plugin, mbind, M_bind.
  rewrite (copy_copy_run h _ o H), setattr_last. reflexivity.
Qed.




(** C10: [db_for_plugin] changes no object that was on the heap, the
    given instance and its [Table] among them; what it returns is a new
    object whose attributes are those of the instance, but for [Table]. *)
Theorem db_for_plugin_copy (default_db : loc) (n : string)
    (sqla_instance : option loc) (h : heap) (o : object) :
  let l := default default_db sqla_instance in
  h !! l = Some o →
  ∃ new_db h' copy,
    db_for_plugin default_db n sqla_instance h = (Ok new_db, h')
    ∧ (∀ l0 o0, h !! l0 = Some o0 → h' !! l0 = Some o0)
    ∧ h' !! l = Some o
    ∧ h !! new_db = None
    ∧ new_db ≠ l
    ∧ h' !! new_db = Some copy
    ∧ (∀ name, name ≠ "Table" → copy !! name = o !! name)
    ∧ copy !! "Table" = Some (VFun (FPluginTable n l)).
Proof.
  intros l Hl. eexists _, _, _. split; [by apply db_for_plugin_run|]. fold l.
  split; [intros l0 o0 H0; by apply lookup_app_l_Some|].
  split; [by apply lookup_app_l_Some|].
  split; [by apply lookup_ge_None|].
  split; [apply lookup_lt_Some in Hl; lia|].
  split; [by apply list_lookup_middle|].
  split; [intros name Hne; by rewrite lookup_insert_ne|].
  apply lookup_insert_eq.
Qed.

Lemma db_for_plugin_copy_witness :
  ∃ new_db h' copy,
    db_for_plugin 0 "flaskbb.plugins.portal" (Some 0) SampleDb.h0 = (Ok new_db, h')
    ∧ h' !! 0 = Some SampleDb.db
    ∧ h' !! new_db = Some copy
    ∧ copy !! "session" = SampleDb.db !! "session".
Proof.
  destruct (db_for_plugin_copy 0 "flaskbb.plugins.portal" (Some 0) SampleDb.h0
              SampleDb.db eq_refl)
    as (new_db & h' & copy & Hrun & _ & Hsame & _ & _ & Hcopy & Hattrs & _).
  exists new_db, h', copy. repeat split; try done. by apply Hattrs.
Defined.

(** * More about the module *)

(** ** A second look at the scan *)

Lemma dict_get_set {V} k k' (v : V) d :
  dict_get k' (dict_set k v d) = if decide (k = k') then Some v else dict_get k' d.
Proof.
  case_decide as Hk; [subst; apply dict_get_set_eq | by apply dict_get_set_ne].
Qed.

(** [load_plugins] returns exactly when no package of the scan raises, be
    it [PluginError] for a name that the package does not have, [TypeError]
    for an attribute that cannot be called, or what the constructor of the
    plugin raises; what it returns then is the dictionary [_found_plugins]
    of the manager.  Otherwise it raises what the first such package
    raises. *)
Theorem load_plugins_returns_iff (pkgs : list package) (self : PluginManager) :
  ((∃ self', load_plugins pkgs self = (Ok (_found_plugins self'), self'))
   ↔ Forall (λ p, pkg_raises p = None) pkgs)
  ∧ (∀ pre p post e,
       pkgs = (pre ++ p :: post)%list →
       Forall (λ q, pkg_raises q = None) pre →
       pkg_raises p = Some e →
       (load_plugins pkgs self).1 = Raise e).
Proof.
  rewrite load_plugins_unfold. split; [split|].
  - intros [self' Hrun].
    destruct (for_each scan_package pkgs _) as [[[]|e] s] eqn:Hscan; [|done].
    by eapply for_each_scan_returned.
  - intros Hall.
    destruct (for_each_scan_returns pkgs
                (set__all_plugins empty (set__plugins empty self)) Hall) as [s ->].
    by exists s.
  - intros pre p post e -> Hpre Hp.
    by destruct (for_each_scan_raises pre p post e
                   (set__all_plugins empty (set__plugins empty self)) Hpre Hp)
      as [s ->].
Qed.

Lemma load_plugins_returns_iff_witness :
  (∃ self',
     load_plugins [SampleScan.helper_pkg; SampleScan.disabled_pkg; SampleScan.portal_pkg]
       SampleScan.fresh_manager
     = (Ok (_found_plugins self'), self'))
  ∧ (load_plugins [SampleScan.portal_pkg; SampleScan.odd_pkg; SampleScan.broken_pkg]
       SampleScan.fresh_manager).1
    = Raise (TypeError (not_callable_message "str")).
Proof.
  split.
  - apply (load_plugins_returns_iff
             [SampleScan.helper_pkg; SampleScan.disabled_pkg; SampleScan.portal_pkg]).
    repeat (apply Forall_cons_2); try apply Forall_nil_2; reflexivity.
  - destruct (load_plugins_returns_iff
                [SampleScan.portal_pkg; SampleScan.odd_pkg; SampleScan.broken_pkg]
                SampleScan.fresh_manager) as [_ Hraise].
    apply (Hraise [SampleScan.portal_pkg] SampleScan.odd_pkg [SampleScan.broken_pkg]).
    + reflexivity.
    + repeat (apply Forall_cons_2); try apply Forall_nil_2; reflexivity.
    + reflexivity.
Defined.

(** Whether [load_plugins] returns or raises, every identifier that it
    leaves in [_plugins] is also in [_all_plugins]. *)
Theorem load_plugins_enabled_among_all (pkgs : list package) (self : PluginManager)
    (ident : string) :
  is_Some (dict_get ident (_plugins (load_plugins pkgs self).2)) →
  is_Some (dict_get ident (_all_plugins (load_plugins pkgs self).2)).
Proof.
  rewrite load_plugins_final_state. revert ident.
  apply (for_each_invariant scan_package
           (λ s, ∀ ident, is_Some (dict_get ident (_plugins s)) →
                          is_Some (dict_get ident (_all_plugins s)))).
  - intros p s _ Hs ident. rewrite scan_package_state.
    destruct (pkg___plugin__ p) as [cn|]; [|apply Hs]. simpl.
    destruct (pkg_instance p) as [inst|]; [|apply Hs]. simpl.
    rewrite dict_get_set. case_decide as Hid; [by eauto|].
    destruct (is_enabled p); [|apply Hs].
    rewrite dict_get_set_ne by done. apply Hs.
  - intros ident [x Hx]. done.
Qed.

Lemma load_plugins_enabled_among_all_witness :
  is_Some (dict_get "portal"
             (_all_plugins
                (load_plugins [SampleScan.portal_pkg; SampleScan.broken_pkg]
                   SampleScan.fresh_manager).2)).
Proof.
  apply (load_plugins_enabled_among_all [SampleScan.portal_pkg; SampleScan.broken_pkg]
           SampleScan.fresh_manager "portal").
  vm_compute. by eexists.
Defined.



Lemma scanned_all pkgs :
  Forall (λ p, pkg_raises p = None) pkgs → scanned pkgs = pkgs.
Proof.
  induction 1 as [|p pkgs Hp _ IH]; simpl; [done|]. by rewrite Hp, IH.
Qed.

(** The class names in [_found_plugins] after a scan: a name that a scanned
    package gives as its [__plugin__] stands for the last such package, any
    other name for what it stood for before. *)
Lemma for_each_scan_found pkgs self class_name :
  dict_get class_name (_found_plugins (for_each scan_package pkgs self).2)
  = match last_named class_name (scanned pkgs) with
    | Some p => Some (pkgname p)
    | None => dict_get class_name (_found_plugins self)
    end.
Proof.
  revert self. induction pkgs as [|p pkgs IH]; intros self; [done|].
  rewrite for_each_cons. simpl scanned.
  pose proof (scan_package_state p self) as Hst.
  pose proof (scan_package_outcome p self) as Hout.
  assert (Hnow : dict_get class_name (_found_plugins (scan_package p self).2)
                 = if decide (pkg___plugin__ p = Some class_name)
                   then Some (pkgname p)
                   else dict_get class_name (_found_plugins self)).
  { rewrite Hst. destruct (pkg___plugin__ p) as [cn|]; [|by rewrite decide_False].
    assert (dict_get class_name (dict_set cn (pkgname p) (_found_plugins self))
            = if decide (Some cn = Some class_name) then Some (pkgname p)
              else dict_get class_name (_found_plugins self)) as Hset.
    { rewrite dict_get_set. repeat case_decide; congruence. }
    simpl. by destruct (pkg_instance p). }
  destruct (scan_package p self) as [r s1]; simpl in *. subst r.
  destruct (pkg_raises p) as [e|].
  - simpl. rewrite Hnow. by case_decide.
  - simpl. rewrite IH. destruct (last_named class_name (scanned pkgs)); [done|].
    rewrite Hnow. by case_decide.
Qed.

(** When [load_plugins] returns, the dictionary that it returns maps a class
    name that some package of the scan has as its [__plugin__] to the name
    of the last such package, and any other class name to what
    [_found_plugins] had for it before the call. *)
Theorem load_plugins_found (pkgs : list package) (self self' : PluginManager)
    (found : dict string) :
  load_plugins pkgs self = (Ok found, self') →
  ∀ class_name,
    dict_get class_name found
    = match last_named class_name pkgs with
      | Some p => Some (pkgname p)
      | None => dict_get class_name (_found_plugins self)
      end.
Proof.
  intros Hrun class_name.
  assert (Forall (λ p, pkg_raises p = None) pkgs) as Hall.
  { rewrite load_plugins_unfold in Hrun.
    destruct (for_each scan_package pkgs _) as [[[]|e] s] eqn:Hscan; [|done].
    by eapply for_each_scan_returned. }
  assert (found = _found_plugins (load_plugins pkgs self).2) as ->.
  { rewrite load_plugins_unfold in *.
    destruct (for_each scan_package pkgs _) as [[[]|e] s]; [|done].
    by injection Hrun as <- <-. }
  rewrite load_plugins_final_state, for_each_scan_found, scanned_all by done.
  done.
Qed.

Lemma load_plugins_found_witness :
  let found := [("OldPlugin", "flaskbb.plugins.old");
                ("PortalPlugin", "flaskbb.plugins.portal_copy")] in
  dict_get "PortalPlugin" found = Some "flaskbb.plugins.portal_copy"
  ∧ dict_get "OldPlugin" found = Some "flaskbb.plugins.old".
Proof.
  intros found.
  pose proof (load_plugins_found
                [SampleScan.portal_pkg; SampleScan.portal_copy_pkg]
                (set__found_plugins [("OldPlugin", "flaskbb.plugins.old")]
                   SampleScan.fresh_manager)
                (load_plugins [SampleScan.portal_pkg; SampleScan.portal_copy_pkg]
                   (set__found_plugins [("OldPlugin", "flaskbb.plugins.old")]
                      SampleScan.fresh_manager)).2
                found eq_refl) as H.
  split; [apply (H "PortalPlugin") | apply (H "OldPlugin")].
Defined.

(** What a scan does to [_plugins] and [_all_plugins], and how it ends,
    does not depend on [_found_plugins]. *)
Lemma for_each_scan_indep pkgs s s' :
  _plugins s = _plugins s' → _all_plugins s = _all_plugins s' →
  (for_each scan_package pkgs s).1 = (for_each scan_package pkgs s').1
  ∧ _plugins (for_each scan_package pkgs s).2 = _plugins (for_each scan_package pkgs s').2
  ∧ _all_plugins (for_each scan_package pkgs s).2
    = _all_plugins (for_each scan_package pkgs s').2.
Proof.
  revert s s'. induction pkgs as [|p pkgs IH]; intros s s' Hp Ha; [done|].
  rewrite !for_each_cons.
  pose proof (scan_package_outcome p s) as Ho.
  pose proof (scan_package_outcome p s') as Ho'.
  pose proof (scan_package_state p s) as Hs.
  pose proof (scan_package_state p s') as Hs'.
  assert (_plugins (scan_package p s).2 = _plugins (scan_package p s').2
          ∧ _all_plugins (scan_package p s).2 = _all_plugins (scan_package p s').2)
    as [Hp1 Ha1].
  { rewrite Hs, Hs'. destruct (pkg___plugin__ p); [|done].
    destruct (pkg_instance p); simpl; by rewrite ?Hp, ?Ha. }
  destruct (scan_package p s) as [r s1], (scan_package p s') as [r' s1'].
  simpl in *. subst r r'.
  destruct (pkg_raises p); simpl; auto.
Qed.

Lemma load_plugins_outcome pkgs self e :
  (load_plugins pkgs self).1 = Raise e
  ↔ (for_each scan_package pkgs (set__all_plugins empty (set__plugins empty self))).1
    = Raise e.
Proof.
  rewrite load_plugins_unfold.
  destruct (for_each scan_package pkgs _) as [[[]|e'] s]; simpl; split; congruence.
Qed.

(** Scanning the same packages again changes nothing: [_plugins] and
    [_all_plugins] come out the same, every class name stands in
    [_found_plugins] for the same package name, and the second scan raises
    what the first one raised, if it did. *)
Theorem load_plugins_again (pkgs : list package) (self : PluginManager) :
  let once := load_plugins pkgs self in
  let twice := load_plugins pkgs once.2 in
  _plugins twice.2 = _plugins once.2
  ∧ _all_plugins twice.2 = _all_plugins once.2
  ∧ (∀ class_name, dict_get class_name (_found_plugins twice.2)
                   = dict_get class_name (_found_plugins once.2))
  ∧ (∀ e, twice.1 = Raise e ↔ once.1 = Raise e).
Proof.
  intros once twice. unfold twice, once.
  destruct (for_each_scan_indep pkgs
              (set__all_plugins empty (set__plugins empty (load_plugins pkgs self).2))
              (set__all_plugins empty (set__plugins empty self)) eq_refl eq_refl)
    as (Ho & Hp & Ha).
  set (s1 := (load_plugins pkgs self).2) in *.
  rewrite (load_plugins_final_state pkgs s1).
  split; [rewrite Hp; unfold s1; by rewrite load_plugins_final_state|].
  split; [rewrite Ha; unfold s1; by rewrite load_plugins_final_state|].
  split.
  - intros class_name. rewrite for_each_scan_found. simpl _found_plugins at 1.
    destruct (last_named class_name (scanned pkgs)) as [q|] eqn:Hq; [|done].
    unfold s1. by rewrite load_plugins_final_state, for_each_scan_found, Hq.
  - intros e. by rewrite !load_plugins_outcome, Ho.
Qed.

(** ** Paths *)

Lemma chars_append (a b : string) :
  list_ascii_of_string (a +:+ b) = (list_ascii_of_string a ++ list_ascii_of_string b)%list.
Proof. induction a as [|c a IH]; simpl; [done | by rewrite IH]. Qed.

Lemma has_char_append c (a b : string) :
  PyStr.has_char c (a +:+ b) ↔ PyStr.has_char c a ∨ PyStr.has_char c b.
Proof. unfold PyStr.has_char. by rewrite chars_append, elem_of_app. Qed.

Lemma append_assoc (a b c : string) : (a +:+ b) +:+ c = a +:+ (b +:+ c).
Proof.
  induction a as [|x a IH]; [done|].
  change (String x ((a +:+ b) +:+ c) = String x (a +:+ (b +:+ c))). by f_equal.
Qed.

Lemma append_empty_r (a : string) : a +:+ "" = a.
Proof.
  induction a as [|x a IH]; [done|].
  change (String x (a +:+ "") = String x a). by f_equal.
Qed.

Lemma endswith_cons c a (t : string) :
  PyStr.endswith (String c EmptyString) (String a t)
  = match t with
    | EmptyString => Ascii.eqb a c
    | String _ _ => PyStr.endswith (String c EmptyString) t
    end.
Proof.
  unfold PyStr.endswith. destruct t as [|b t]; simpl.
  - by destruct (Ascii.eqb a c).
  - by rewrite Nat.sub_0_r.
Qed.

(** [s.endswith(c)] for one character looks at the last character. *)
Lemma endswith_last c (s : string) :
  PyStr.endswith (String c EmptyString) s = true
  ↔ last (list_ascii_of_string s) = Some c.
Proof.
  induction s as [|a t IH]; [done|].
  rewrite endswith_cons. destruct t as [|b t].
  - simpl. rewrite Ascii.eqb_eq. split; congruence.
  - rewrite IH. done.
Qed.

Lemma drop_while_app_all {A} (f : A → bool) (l1 l2 : list A) :
  Forall (λ x, f x = true) l1 →
  PyStr.drop_while f (l1 ++ l2)%list = PyStr.drop_while f l2.
Proof. induction 1 as [|x l1 Hx _ IH]; simpl; [done | by rewrite Hx]. Qed.

(** [os.path.split] gives back the directory of a file: a path made of a
    directory that does not end with a slash, a slash and a name without
    slashes has that directory as its head. *)
Lemma os_path_split_head_file (dir base : string) :
  dir ≠ "" → PyStr.endswith "/" dir = false → ¬ PyStr.has_char "/" base →
  PyStr.os_path_split_head (dir +:+ "/" +:+ base) = dir.
Proof.
  intros Hdir Hend Hbase. unfold PyStr.os_path_split_head.
  rewrite !chars_append, !rev_app_distr. simpl.
  rewrite <- !app_assoc. simpl.
  rewrite drop_while_app_all; last first.
  { apply Forall_forall. intros c Hc.
    apply list_elem_of_In, in_rev, list_elem_of_In in Hc.
    unfold PyStr.is_slash. destruct (Ascii.eqb_spec c "/") as [->|]; [|done].
    by destruct Hbase. }
  simpl.
  destruct (exists_last (l := list_ascii_of_string dir)) as (cs & c0 & Hcs).
  { destruct dir; [done | discriminate]. }
  rewrite Hcs, rev_app_distr. simpl.
  assert (PyStr.is_slash c0 = false) as Hc0.
  { unfold PyStr.is_slash. destruct (Ascii.eqb_spec c0 "/") as [->|]; [|done].
    assert (PyStr.endswith "/" dir = true) as Ht; [|congruence].
    apply endswith_last. rewrite Hcs. apply last_snoc. }
  rewrite Hc0. simpl. rewrite rev_involutive.
  by rewrite <- Hcs, string_of_list_ascii_of_string.
Qed.

(** The plugin of a package is made with the directory that holds the file
    of the package: the class is called with that directory, the plugin
    that it returns is the one the loop files in [_all_plugins], and what
    it raises is what the package makes the loop raise. *)
Theorem scan_plugin_path (p : package) (class_name : string) (plugin_class : PluginClass)
    (dir base : string) :
  pkg___plugin__ p = Some class_name →
  pkg_attrs p !! class_name = Some (AttrClass plugin_class) →
  pkg_filename p = dir +:+ "/" +:+ base →
  dir ≠ "" → PyStr.endswith "/" dir = false → ¬ PyStr.has_char "/" base →
  pkg_result p = Some (class_init plugin_class dir)
  ∧ ∀ inst, class_init plugin_class dir = Ok inst →
      pkg_instance p = Some inst
      ∧ ∀ self, _all_plugins (scan_package p self).2
                = dict_set (identifier inst) inst (_all_plugins self).
Proof.
  intros Hcn Hcls Hfile Hdir Hend Hbase.
  assert (pkg_result p = Some (class_init plugin_class dir)) as Hres.
  { unfold pkg_result. rewrite Hcn. simpl.
    by rewrite Hcls, Hfile, os_path_split_head_file. }
  split; [done|]. intros inst Hinst.
  assert (pkg_instance p = Some inst) as Hp.
  { unfold pkg_instance. by rewrite Hres, Hinst. }
  split; [done|]. intros self. by rewrite scan_package_state, Hcn, Hp.
Qed.

Lemma scan_plugin_path_witness :
  pkg_instance SampleScan.portal_pkg = Some SampleScan.portal_instance
  ∧ pkg_result SampleScan.unreadable_pkg = Some (Raise IOError).
Proof.
  split.
  - apply (scan_plugin_path SampleScan.portal_pkg "PortalPlugin"
             (SampleScan.plugin_class "portal" (Some "portal") "flaskbb.plugins.portal")
             "/srv/flaskbb/plugins/portal" "__init__.py");
      try reflexivity; try discriminate.
    intros H. apply str_in_char in H. discriminate.
  - apply (scan_plugin_path SampleScan.unreadable_pkg "BarePlugin"
             SampleScan.unreadable_class "/srv/flaskbb/plugins/bare" "__init__.py");
      try reflexivity; try discriminate.
    intros H. apply str_in_char in H. discriminate.
Defined.

(** ** Resource names *)

Lemma split_without_sep sep (s : string) :
  ¬ PyStr.has_char sep s → PyStr.split sep s = [s].
Proof.
  unfold PyStr.has_char. induction s as [|c s IH]; intros Hs; [done|].
  simpl in *. destruct (Ascii.eqb_spec c sep) as [->|Hne].
  - destruct Hs. left.
  - rewrite IH; [done|]. intros H. apply Hs. by right.
Qed.

Lemma startswith_has_char c (s : string) :
  PyStr.startswith (String c EmptyString) s = true → PyStr.has_char c s.
Proof.
  unfold PyStr.startswith. intros [s' ->]%prefix_char. left.
Qed.

Lemma not_startswith c (s : string) :
  ¬ PyStr.has_char c s → PyStr.startswith (String c EmptyString) s = false.
Proof.
  intros H. destruct (PyStr.startswith _ s) eqn:Hs; [|done].
  by apply startswith_has_char in Hs.
Qed.

Lemma resource_fname_plain self names :
  Forall (λ n, ¬ PyStr.has_char "/" n) names →
  resource_fname self names = PyStr.os_path_join (path self) names.
Proof.
  intros Hall. unfold resource_fname.
  destruct names as [|n [|n' names]]; try done.
  apply Forall_inv in Hall. apply (str_in_char_false "/" n) in Hall. by rewrite Hall.
Qed.

(** One name with slashes in it stands for its components: the result is
    the same as when the components are given one by one. *)
Theorem resource_filename_components (self : FlaskBBPlugin) (n : string) :
  resource_filename self [n] = resource_filename self (PyStr.split "/" n).
Proof.
  unfold resource_filename.
  assert (resource_fname self [n] = resource_fname self (PyStr.split "/" n)) as ->;
    [|done].
  destruct (PyStr.str_in "/" n) eqn:Hn.
  - rewrite (resource_fname_plain self (PyStr.split "/" n)).
    + unfold resource_fname. by rewrite Hn.
    + apply Forall_forall. intros w Hw. by apply (split_no_sep "/" n).
  - apply (str_in_char_false "/" n) in Hn. by rewrite split_without_sep.
Qed.

Lemma join_step_extends (a b : string) :
  PyStr.startswith "/" b = false → ∃ rest, PyStr.join_step a b = a +:+ rest.
Proof.
  intros Hb. unfold PyStr.join_step. rewrite Hb.
  destruct (_ || _); [by exists b|]. exists ("/" +:+ b). done.
Qed.

Lemma os_path_join_extends (a : string) (names : list string) :
  Forall (λ b, PyStr.startswith "/" b = false) names →
  ∃ rest, PyStr.os_path_join a names = a +:+ rest.
Proof.
  unfold PyStr.os_path_join. intros Hall. revert a.
  induction Hall as [|b names Hb _ IH]; intros a; simpl.
  - exists "". by rewrite append_empty_r.
  - destruct (join_step_extends a b Hb) as [r1 ->].
    destruct (IH (a +:+ r1)) as [r2 ->].
    exists (r1 +:+ r2). apply append_assoc.
Qed.

Lemma resource_filename_cases self names :
  resource_filename self names = resource_fname self names
  ∨ resource_filename self names
    = PyStr.dquote +:+ resource_fname self names +:+ PyStr.dquote.
Proof.
  unfold resource_filename. destruct (_ && _); auto.
Qed.

Lemma resource_fname_several self names :
  List.length names ≠ 1 →
  resource_fname self names = PyStr.os_path_join (path self) names.
Proof. intros H. by destruct names as [|n [|n' names]]. Qed.

Lemma os_path_join_absolute (a name : string) (pre post : list string) :
  PyStr.startswith "/" name = true →
  PyStr.os_path_join a (pre ++ name :: post)%list = PyStr.os_path_join name post.
Proof.
  intros Hname. unfold PyStr.os_path_join. rewrite fold_left_app. simpl.
  unfold PyStr.join_step at 2. by rewrite Hname.
Qed.

(** A resource given by one name lies under the path of the plugin, also
    when the name begins with a slash; the same holds for several names of
    which none begins with a slash.  But among two names or more, a name
    that begins with a slash takes the place of everything before it, the
    path of the plugin included: the result is made of that name and the
    names after it, whatever the plugin. *)
Theorem resource_filename_under_path (self : FlaskBBPlugin) :
  (∀ n, ∃ rest,
     resource_filename self [n] = path self +:+ rest
     ∨ resource_filename self [n] = PyStr.dquote +:+ (path self +:+ rest) +:+ PyStr.dquote)
  ∧ (∀ names, Forall (λ b, PyStr.startswith "/" b = false) names →
       ∃ rest,
         resource_filename self names = path self +:+ rest
         ∨ resource_filename self names
           = PyStr.dquote +:+ (path self +:+ rest) +:+ PyStr.dquote)
  ∧ (∀ pre name post,
       PyStr.startswith "/" name = true →
       List.length (pre ++ name :: post)%list ≠ 1 →
       resource_fname self (pre ++ name :: post)%list = PyStr.os_path_join name post
       ∧ (resource_filename self (pre ++ name :: post)%list = PyStr.os_path_join name post
          ∨ resource_filename self (pre ++ name :: post)%list
            = PyStr.dquote +:+ PyStr.os_path_join name post +:+ PyStr.dquote)
       ∧ ∀ other : FlaskBBPlugin,
           resource_filename self (pre ++ name :: post)%list
           = resource_filename other (pre ++ name :: post)%list).
Proof.
  assert (∀ n, ∃ rest, resource_fname self [n] = path self +:+ rest) as Hone.
  { intros n. unfold resource_fname. destruct (PyStr.str_in "/" n) eqn:Hn.
    - apply os_path_join_extends, Forall_forall. intros w Hw.
      apply not_startswith. by apply (split_no_sep "/" n).
    - apply os_path_join_extends. constructor; [|constructor].
      apply not_startswith. by apply str_in_char_false. }
  split; [|split].
  - intros n. destruct (Hone n) as [rest Hrest]. exists rest.
    destruct (resource_filename_cases self [n]) as [-> | ->]; rewrite Hrest; auto.
  - intros names Hall.
    assert (∃ rest, resource_fname self names = path self +:+ rest) as [rest Hrest].
    { destruct names as [|n [|n' names]]; [| apply Hone |];
        by apply os_path_join_extends. }
    exists rest.
    destruct (resource_filename_cases self names) as [-> | ->]; rewrite Hrest; auto.
  - intros pre name post Hname Hlen.
    assert (∀ plugin : FlaskBBPlugin,
              resource_fname plugin (pre ++ name :: post)%list
              = PyStr.os_path_join name post) as Hfname.
    { intros plugin. rewrite resource_fname_several by done.
      by apply os_path_join_absolute. }
    split; [apply Hfname|]. split.
    + destruct (resource_filename_cases self (pre ++ name :: post)%list) as [-> | ->];
        rewrite Hfname; auto.
    + intros other. unfold resource_filename. by rewrite !Hfname.
Qed.

Lemma resource_filename_under_path_witness :
  (∃ rest,
     resource_filename Sample.portal ["static"; "css"] = path Sample.portal +:+ rest
     ∨ resource_filename Sample.portal ["static"; "css"]
       = PyStr.dquote +:+ (path Sample.portal +:+ rest) +:+ PyStr.dquote)
  ∧ resource_fname Sample.portal ["static"; "css"; "/etc"; "passwd"] = "/etc/passwd".
Proof.
  split.
  - apply (resource_filename_under_path Sample.portal).
    repeat (apply Forall_cons_2); try apply Forall_nil_2; reflexivity.
  - apply (resource_filename_under_path Sample.portal)
      with (pre := ["static"; "css"]) (name := "/etc") (post := ["passwd"]).
    + reflexivity.
    + simpl. lia.
Defined.

(** A result with a space in it always has a quote in it: either it came
    with one or it was put between double quotes. *)
Theorem resource_filename_space_quoted (self : FlaskBBPlugin) (names : list string) :
  PyStr.has_char " " (resource_filename self names) →
  PyStr.has_char "034" (resource_filename self names)
  ∨ PyStr.has_char "'" (resource_filename self names).
Proof.
  unfold resource_filename.
  pose proof (str_in_char " " (resource_fname self names)) as Hsp.
  pose proof (str_in_char "034" (resource_fname self names)) as Hdq.
  pose proof (str_in_char "'" (resource_fname self names)) as Hsq.
  change (String "034" EmptyString) with PyStr.dquote in Hdq.
  change (String "'" EmptyString) with PyStr.squote in Hsq.
  destruct (PyStr.str_in " " _), (PyStr.str_in PyStr.dquote _),
    (PyStr.str_in PyStr.squote _); simpl; intros H;
    try (left; by apply Hdq); try (right; by apply Hsq);
    try (destruct Hsp as [_ Hsp]; by discriminate (Hsp H)).
  left. apply has_char_append. left. left.
Qed.

Lemma resource_filename_space_quoted_witness :
  PyStr.has_char "034" (resource_filename Sample.spaced ["static"])
  ∨ PyStr.has_char "'" (resource_filename Sample.spaced ["static"]).
Proof.
  apply (resource_filename_space_quoted Sample.spaced ["static"]).
  apply str_in_char. reflexivity.
Defined.

(** ** Uninstalling, and the tables of a plugin *)

(** [uninstallable] is [True] exactly when the plugin has a [settings_key]
    and the settings group of that key exists and has at least one setting;
    so a plugin that can be uninstalled can be installed. *)
Theorem uninstallable_spec (groups : gmap string (list string)) (self : FlaskBBPlugin) :
  (uninstallable groups self = true
   ↔ ∃ key settings, settings_key self = Some key ∧ groups !! key = Some settings
                     ∧ settings ≠ [])
  ∧ (uninstallable groups self = true → installable self = true).
Proof.
  unfold uninstallable, installable.
  destruct (settings_key self) as [key|]; simpl.
  - split; [|done]. destruct (groups !! key) as [settings|] eqn:Hg.
    + rewrite bool_decide_eq_true. split.
      * intros Hlen. exists key, settings. split; [done|]. split; [done|].
        intros ->. simpl in Hlen. lia.
      * intros (k & st & [= <-] & Hst & Hne). rewrite Hg in Hst.
        injection Hst as <-. destruct settings; simpl; [done | lia].
    + split; [done|]. intros (k & st & [= <-] & Hst & _). congruence.
  - split; [|done]. split; [done|]. by intros (? & ? & ? & _).
Qed.

Lemma uninstallable_spec_witness :
  installable Sample.portal = true.
Proof.
  apply (uninstallable_spec SampleTables.groups Sample.portal). reflexivity.
Defined.

Lemma create_table_run model (db : gset string) :
  create_table model db = (Ok tt, {[model]} ∪ db).
Proof.
  unfold create_table, table_exists, table_create, mbind, M_bind, mret, M_ret.
  case_bool_decide as Hin; simpl.
  - f_equal. set_solver.
  - by rewrite decide_False.
Qed.

Lemma create_all_tables_run (models : list string) (db : gset string) :
  (create_all_tables models db).2 = list_to_set models ∪ db.
Proof.
  unfold create_all_tables. revert db.
  induction models as [|m models IH]; intros db.
  - simpl. set_solver.
  - rewrite for_each_cons, create_table_run, IH. set_solver.
Qed.

Lemma create_all_tables_returns (models : list string) (db : gset string) :
  (create_all_tables models db).1 = Ok tt.
Proof.
  unfold create_all_tables. revert db.
  induction models as [|m models IH]; intros db; [done|].
  by rewrite for_each_cons, create_table_run, IH.
Qed.

(** [create_all_tables] never raises, whether some of the tables are there
    already or a model comes twice: afterwards the tables of the models
    exist, besides those that existed before. *)
Theorem create_all_tables_spec (models : list string) (db : gset string) :
  create_all_tables models db = (Ok tt, list_to_set models ∪ db).
Proof.
  pose proof (create_all_tables_returns models db) as Hr.
  pose proof (create_all_tables_run models db) as Hs.
  destruct (create_all_tables models db) as [r s]. simpl in *. by subst.
Qed.

Lemma drop_table_run model (db : gset string) :
  drop_table model db
  = if decide (model ∈ db) then (Ok tt, db ∖ {[model]})
    else (Raise (OtherError "no such table"), db).
Proof. reflexivity. Qed.

Lemma drop_all_tables_present (models : list string) (db : gset string) :
  NoDup models → (∀ m, m ∈ models → m ∈ db) →
  drop_all_tables models db = (Ok tt, db ∖ list_to_set models).
Proof.
  unfold drop_all_tables. intros Hnd. revert db.
  induction Hnd as [|m models Hm _ IH]; intros db Hall.
  - simpl. unfold mret, M_ret. f_equal. set_solver.
  - rewrite for_each_cons, drop_table_run.
    rewrite decide_True by (apply Hall; left).
    rewrite IH.
    + f_equal. set_solver.
    + intros x Hx. apply elem_of_difference. split; [apply Hall; by right|].
      set_solver.
Qed.

(** [drop_all_tables] stops at the first model whose table is not there,
    be it that it never was or that the model came earlier in the list; the
    tables of the models before it are gone by then. *)
Theorem drop_all_tables_missing (pre post : list string) (m : string)
    (db : gset string) :
  NoDup pre → (∀ x, x ∈ pre → x ∈ db) → (m ∉ db ∨ m ∈ pre) →
  drop_all_tables (pre ++ m :: post)%list db
  = (Raise (OtherError "no such table"), db ∖ list_to_set pre).
Proof.
  intros Hnd Hall Hm. unfold drop_all_tables.
  rewrite for_each_app. fold (drop_all_tables pre).
  rewrite drop_all_tables_present by done.
  rewrite for_each_cons, drop_table_run.
  rewrite decide_False; [done|].
  rewrite elem_of_difference, elem_of_list_to_set. tauto.
Qed.

Lemma drop_all_tables_missing_witness :
  drop_all_tables ["forums"; "forums"; "users"] SampleTables.db0
  = (Raise (OtherError "no such table"), SampleTables.db0 ∖ list_to_set ["forums"]).
Proof.
  apply (drop_all_tables_missing ["forums"] ["users"] "forums" SampleTables.db0).
  - apply NoDup_singleton.
  - intros x ->%list_elem_of_singleton. set_solver.
  - right. left.
Defined.

(** Creating the tables of models that are all different and none of which
    exists, and dropping them again, gives back the database as it was. *)
Theorem create_then_drop_all_tables (models : list string) (db : gset string) :
  NoDup models → (∀ m, m ∈ models → m ∉ db) →
  (create_all_tables models ;; drop_all_tables models) db = (Ok tt, db).
Proof.
  intros Hnd Hfresh. unfold mbind, M_bind.
  pose proof (create_all_tables_returns models db) as Hr.
  pose proof (create_all_tables_run models db) as Hs.
  destruct (create_all_tables models db) as [r s]. simpl in *. subst r s.
  rewrite drop_all_tables_present; [|done|set_solver].
  f_equal. apply set_eq. intros x.
  rewrite elem_of_difference, elem_of_union, elem_of_list_to_set.
  specialize (Hfresh x). tauto.
Qed.

Lemma create_then_drop_all_tables_witness :
  (create_all_tables ["portal_posts"; "portal_tags"] ;;
   drop_all_tables ["portal_posts"; "portal_tags"]) SampleTables.db0
  = (Ok tt, SampleTables.db0).
Proof.
  apply (create_then_drop_all_tables ["portal_posts"; "portal_tags"] SampleTables.db0).
  - apply NoDup_cons_2; [|apply NoDup_singleton].
    intros H%list_elem_of_singleton. discriminate.
  - intros m Hm Hdb.
    apply elem_of_cons in Hm as [->|Hm];
      [|apply list_elem_of_singleton in Hm as ->];
      apply elem_of_union in Hdb as [Hdb|Hdb]; apply elem_of_singleton in Hdb;
      discriminate.
Defined.

(** ** Generating migrations *)

(** [migrate] in terms of what the tool answers. *)
Lemma migrate_run (tool : migrate_call → world → result unit)
    (plugin_manager : PluginManager) (self : FlaskBBPlugin) (w : world) :
  let directory :=
    PyStr.os_path_join (plugin_folder plugin_manager) ["_migration_environment"] in
  let first_call := MigrateHead directory (settings_key self) in
  let second_call :=
    MigrateBranch directory (resource_filename self ["migration_versions"])
      (settings_key self) in
  let scoped := <["plugin_name" := VStr (module_name self)]> (g w) in
  migrate tool plugin_manager self w
  = match tool first_call {| g := scoped; migrate_calls := migrate_calls w |} with
    | Ok _ =>
        (Ok tt, {| g := delete "plugin_name" (g w);
                   migrate_calls := (migrate_calls w ++ [first_call])%list |})
    | Raise e =>
        if is_Exception e
        then match tool second_call
                     {| g := scoped;
                        migrate_calls := (migrate_calls w ++ [first_call])%list |} with
             | Ok _ =>
                 (Ok tt, {| g := delete "plugin_name" (g w);
                            migrate_calls :=
                              (migrate_calls w ++ [first_call; second_call])%list |})
             | Raise e2 =>
                 (Raise e2, {| g := scoped;
                               migrate_calls :=
                                 (migrate_calls w ++ [first_call; second_call])%list |})
             end
        else (Raise e, {| g := scoped;
                          migrate_calls := (migrate_calls w ++ [first_call])%list |})
    end.
Proof.
  intros directory first_call second_call scoped.
  unfold migrate. fold directory. fold first_call second_call.
  clearbody first_call second_call.
  unfold with_stmt, try_except, flask_migrate, plugin_name_migrate,
    g_setattr, g_delattr, modify, set_g.
  simpl. fold scoped.
  destruct (tool first_call _) as [[]|e1]; simpl.
  - subst scoped. rewrite lookup_insert_eq. simpl. by rewrite delete_insert_eq.
  - destruct (is_Exception e1); simpl; [|done].
    rewrite <- app_assoc. simpl.
    destruct (tool second_call _) as [[]|e2]; simpl; [|done].
    subst scoped. rewrite lookup_insert_eq. simpl. by rewrite delete_insert_eq.
Qed.

(** [migrate] first asks the tool for a migration on the head of the
    plugin, with [g.plugin_name] set to the module of the plugin while the
    tool runs.  When that call returns it is the only one, and afterwards
    [g] is as before, without [plugin_name]. *)
Theorem migrate_first_try (tool : migrate_call → world → result unit)
    (plugin_manager : PluginManager) (self : FlaskBBPlugin) (w : world) :
  let directory :=
    PyStr.os_path_join (plugin_folder plugin_manager) ["_migration_environment"] in
  let first_call := MigrateHead directory (settings_key self) in
  let scoped := <["plugin_name" := VStr (module_name self)]> (g w) in
  tool first_call {| g := scoped; migrate_calls := migrate_calls w |} = Ok tt →
  migrate tool plugin_manager self w
  = (Ok tt, {| g := delete "plugin_name" (g w);
               migrate_calls := (migrate_calls w ++ [first_call])%list |}).
Proof.
  intros directory first_call scoped Hfirst.
  rewrite migrate_run. fold directory first_call scoped. by rewrite Hfirst.
Qed.

(** When the first call raises an exception that [except Exception]
    catches, [migrate] calls the tool again to start a branch in the
    [migration_versions] directory of the plugin.  The outcome is that of
    the second call: if it returns, [migrate] returns and the first
    exception is lost; if it raises, [migrate] raises the same and
    [g.plugin_name] stays set.  An exception that is no [Exception], as
    [SystemExit], goes through: there is no second call, and
    [g.plugin_name] stays set. *)
Theorem migrate_fallback (tool : migrate_call → world → result unit)
    (plugin_manager : PluginManager) (self : FlaskBBPlugin) (w : world) (e : exn) :
  let directory :=
    PyStr.os_path_join (plugin_folder plugin_manager) ["_migration_environment"] in
  let first_call := MigrateHead directory (settings_key self) in
  let second_call :=
    MigrateBranch directory (resource_filename self ["migration_versions"])
      (settings_key self) in
  let scoped := <["plugin_name" := VStr (module_name self)]> (g w) in
  let again := {| g := scoped; migrate_calls := (migrate_calls w ++ [first_call])%list |} in
  tool first_call {| g := scoped; migrate_calls := migrate_calls w |} = Raise e →
  (is_Exception e = true →
     (tool second_call again = Ok tt →
        migrate tool plugin_manager self w
        = (Ok tt, {| g := delete "plugin_name" (g w);
                     migrate_calls :=
                       (migrate_calls w ++ [first_call; second_call])%list |}))
     ∧ (∀ e2, tool second_call again = Raise e2 →
          migrate tool plugin_manager self w
          = (Raise e2, {| g := scoped;
                          migrate_calls :=
                            (migrate_calls w ++ [first_call; second_call])%list |})))
  ∧ (is_Exception e = false →
       migrate tool plugin_manager self w = (Raise e, again)).
Proof.
  intros directory first_call second_call scoped again Hfirst.
  rewrite migrate_run. fold directory first_call second_call scoped again.
  rewrite Hfirst. split.
  - intros ->. split; [by intros -> | by intros e2 ->].
  - by intros ->.
Qed.

Lemma migrate_first_try_witness :
  migrate SampleApp.tool_ok SampleApp.manager Sample.portal SampleApp.w0
  = (Ok tt, {| g := delete "plugin_name" ∅;
               migrate_calls :=
                 [MigrateHead "/srv/flaskbb/plugins/_migration_environment"
                    (Some "portal")] |}).
Proof.
  apply (migrate_first_try SampleApp.tool_ok SampleApp.manager Sample.portal SampleApp.w0).
  reflexivity.
Defined.

Lemma migrate_fallback_witness :
  migrate SampleApp.tool_failing SampleApp.manager Sample.portal SampleApp.w0
  = (Raise (OtherError "migration failed"),
     {| g := {[ "plugin_name" := VStr "flaskbb.plugins.portal" ]};
        migrate_calls :=
          [MigrateHead "/srv/flaskbb/plugins/_migration_environment" (Some "portal");
           MigrateBranch "/srv/flaskbb/plugins/_migration_environment"
             "/srv/flaskbb/plugins/portal/migration_versions" (Some "portal")] |})
  ∧ migrate SampleApp.tool_exiting SampleApp.manager Sample.portal SampleApp.w0
    = (Raise (SystemExit "1"),
       {| g := {[ "plugin_name" := VStr "flaskbb.plugins.portal" ]};
          migrate_calls :=
            [MigrateHead "/srv/flaskbb/plugins/_migration_environment" (Some "portal")] |}).
Proof.
  split.
  - apply (migrate_fallback SampleApp.tool_failing SampleApp.manager Sample.portal
             SampleApp.w0 (OtherError "migration failed") eq_refl); reflexivity.
  - apply (migrate_fallback SampleApp.tool_exiting SampleApp.manager Sample.portal
             SampleApp.w0 (SystemExit "1") eq_refl); reflexivity.
Defined.

(** ** More about the context and the database commands *)

(** The context does not nest: the inner one takes [plugin_name] away when
    it ends, and the outer one, finding nothing to delete, raises
    [AttributeError] although the block went well. *)
Theorem plugin_name_migrate_nested {A} (outer inner : value) (body : M world A)
    (w w2 : world) (a : A) :
  body (set_g (insert "plugin_name" inner) (set_g (insert "plugin_name" outer) w))
    = (Ok a, w2) →
  is_Some (g w2 !! "plugin_name") →
  with_stmt (plugin_name_migrate outer) (with_stmt (plugin_name_migrate inner) body) w
  = (Raise (AttributeError "plugin_name"), set_g (delete "plugin_name") w2).
Proof.
  intros Hbody [v Hv]. unfold with_stmt at 1. rewrite plugin_name_migrate_enter.
  unfold with_stmt. rewrite plugin_name_migrate_enter, Hbody. simpl.
  unfold g_delattr at 1. rewrite Hv. unfold g_delattr. simpl.
  by rewrite lookup_delete_eq.
Qed.

Lemma plugin_name_migrate_nested_witness :
  with_stmt (plugin_name_migrate (VStr "flaskbb.plugins.portal"))
    (with_stmt (plugin_name_migrate (VStr "flaskbb.plugins.polls")) (mret tt))
    SampleApp.w0
  = (Raise (AttributeError "plugin_name"), SampleApp.w0).
Proof.
  rewrite (plugin_name_migrate_nested (VStr "flaskbb.plugins.portal")
             (VStr "flaskbb.plugins.polls") (mret tt) SampleApp.w0
             (set_g (insert "plugin_name" (VStr "flaskbb.plugins.polls"))
                (set_g (insert "plugin_name" (VStr "flaskbb.plugins.portal")) SampleApp.w0))
             tt eq_refl).
  - reflexivity.
  - by eexists.
Defined.

(** Without a [settings_key] neither [upgrade_database] nor
    [downgrade_database] gets as far as the tool: building the revision
    raises [TypeError] and nothing has changed. *)
Theorem database_commands_need_key (tool : migrate_call → world → result unit)
    (plugin_manager : PluginManager) (self : FlaskBBPlugin) (target : option string)
    (w : world) :
  settings_key self = None →
  ∃ msg,
    upgrade_database tool plugin_manager self target w = (Raise (TypeError msg), w)
    ∧ downgrade_database tool plugin_manager self target w = (Raise (TypeError msg), w).
Proof.
  intros Hkey. unfold upgrade_database, downgrade_database. rewrite Hkey.
  eexists. split; reflexivity.
Qed.

Lemma database_commands_need_key_witness :
  ∃ msg,
    upgrade_database SampleApp.tool_ok SampleApp.manager Sample.plain None SampleApp.w0
      = (Raise (TypeError msg), SampleApp.w0)
    ∧ downgrade_database SampleApp.tool_ok SampleApp.manager Sample.plain None SampleApp.w0
      = (Raise (TypeError msg), SampleApp.w0).
Proof.
  apply (database_commands_need_key SampleApp.tool_ok SampleApp.manager Sample.plain None
           SampleApp.w0).
  reflexivity.
Defined.

(** ** More about labelled tables *)




(** [db_for_plugin] does not look at the [Table] of the instance: it
    returns also when the instance has none, and the error comes when
    [Table] is called on the copy. *)
Theorem db_for_plugin_defers_lookup (native : string → call_args → M heap value)
    (default_db : loc) (n : string) (sqla_instance : option loc) (h : heap) (o : object) :
  h !! default default_db sqla_instance = Some o →
  o !! "Table" = None →
  ∃ new_db h',
    db_for_plugin default_db n sqla_instance h = (Ok new_db, h')
    ∧ ∀ fuel args,
        call_method native (S fuel) new_db "Table" args h'
        = (Raise (AttributeError "Table"), h').
Proof.
  intros Ho HTable. eexists _, _. split; [by apply db_for_plugin_run|].
  intros fuel args. unfold call_method, mbind, M_bind.
  assert (∀ x, getattr (List.length h) "Table" (h ++ [<["Table" := x]> o])%list
               = (Ok x, (h ++ [<["Table" := x]> o])%list)) as ->.
  { intros x. unfold getattr. rewrite list_lookup_middle by done.
    by rewrite lookup_insert_eq. }
  simpl. unfold mbind, M_bind, getattr.
  rewrite lookup_app_l_Some with (x := o) by done. by rewrite HTable.
Qed.

Lemma db_for_plugin_defers_lookup_witness :
  ∃ new_db h',
    db_for_plugin 0 "flaskbb.plugins.portal" None [{[ "session" := VNone ]}]
      = (Ok new_db, h')
    ∧ call_method SampleDb.native 1 new_db "Table" SampleDb.posts_args h'
      = (Raise (AttributeError "Table"), h').
Proof.
  destruct (db_for_plugin_defers_lookup SampleDb.native 0 "flaskbb.plugins.portal" None
              [{[ "session" := VNone ]}] {[ "session" := VNone ]} eq_refl)
    as (new_db & h' & Hrun & Hcall); [by vm_compute|].
  exists new_db, h'. split; [done | apply Hcall].
Defined.

(** ** More about the configuration callback *)

(** Calling [config_migrate] again on the same configuration gives what
    the first call gave, be it the configuration or [ValueError], and
    changes nothing more; this for a [version_table] that is not set or is
    stored without a per cent sign, so that it reads the same after
    [version_locations] has been set. *)
Theorem config_migrate_again (interpolate : gmap string string → string → result string)
    (plugin_manager : PluginManager) (config : loc) (h : list Config) (c : Config) :
  h !! config = Some c →
  (∀ raw, main_options c !! "version_table" = Some raw → ¬ PyStr.has_char "%" raw) →
  config_migrate interpolate plugin_manager config
    (config_migrate interpolate plugin_manager config h).2
  = ((config_migrate interpolate plugin_manager config h).1,
     (config_migrate interpolate plugin_manager config h).2).
Proof.
  intros Hc Hplain.
  assert (∀ h0 c0, h0 !! config = Some c0 →
            main_options c0 !! "version_table" = main_options c !! "version_table" →
            (get_main_option interpolate config "version_table" h0).1
            = Ok (main_options c !! "version_table")) as Hread.
  { intros h0 c0 H0 Hsame. rewrite (get_main_option_run interpolate config _ h0 c0 H0).
    rewrite Hsame. destruct (main_options c !! "version_table") as [raw|] eqn:Hraw; [|done].
    specialize (Hplain raw eq_refl). apply str_in_char_false in Hplain.
    by rewrite Hplain. }
  rewrite (config_migrate_run interpolate plugin_manager config h c Hc).
  cbv zeta. rewrite (Hread h c Hc eq_refl). case_decide as Hvt; simpl.
  - destruct (interpolation_ok _) eqn:Hok; simpl.
    + set (c' := {| main_options := <["version_locations" := _]> (main_options c) |}).
      assert (<[config := c']> h !! config = Some c') as Hc'.
      { apply list_lookup_insert_eq. by eapply lookup_lt_Some. }
      rewrite (config_migrate_run interpolate plugin_manager config _ c' Hc'). cbv zeta.
      rewrite (Hread _ c' Hc') by (simpl; by rewrite lookup_insert_ne).
      rewrite decide_True, Hok by done. subst c'. simpl.
      by rewrite list_insert_insert_eq, insert_insert_eq.
    + rewrite (config_migrate_run interpolate plugin_manager config h c Hc). cbv zeta.
      by rewrite (Hread h c Hc eq_refl), decide_True, Hok.
  - rewrite (config_migrate_run interpolate plugin_manager config h c Hc). cbv zeta.
    by rewrite (Hread h c Hc eq_refl), decide_False.
Qed.

Lemma config_migrate_again_witness :
  config_migrate SampleApp.interpolate SampleApp.manager 0
    (config_migrate SampleApp.interpolate SampleApp.manager 0
       [SampleApp.plugins_ini; SampleApp.alembic_ini]).2
  = (Ok 0,
     (config_migrate SampleApp.interpolate SampleApp.manager 0
        [SampleApp.plugins_ini; SampleApp.alembic_ini]).2).
Proof.
  apply (config_migrate_again SampleApp.interpolate SampleApp.manager 0
           [SampleApp.plugins_ini; SampleApp.alembic_ini] SampleApp.plugins_ini).
  - reflexivity.
  - intros raw Hraw. vm_compute in Hraw. injection Hraw as <-.
    apply str_in_char_false. reflexivity.
Defined.

Lemma split_append sep (x s : string) :
  ¬ PyStr.has_char sep x →
  PyStr.split sep (x +:+ String sep s) = x :: PyStr.split sep s.
Proof.
  unfold PyStr.has_char. induction x as [|c x IH]; intros Hx.
  - change ("" +:+ String sep s) with (String sep s). simpl.
    by rewrite Ascii.eqb_refl.
  - change (String c x +:+ String sep s) with (String c (x +:+ String sep s)).
    simpl in *. destruct (Ascii.eqb_spec c sep) as [->|Hne].
    + destruct Hx. left.
    + rewrite IH; [done|]. intros H. apply Hx. by right.
Qed.

(** Splitting at the separator undoes a join of pieces that do not have
    the separator in them. *)
Lemma split_join sep (l : list string) :
  l ≠ [] → Forall (λ x, ¬ PyStr.has_char sep x) l →
  PyStr.split sep (PyStr.join (String sep EmptyString) l) = l.
Proof.
  unfold PyStr.join. intros Hne Hall.
  induction Hall as [|x l Hx Hl IH]; [done|].
  destruct l as [|y l].
  - simpl. by apply split_without_sep.
  - change (String.concat (String sep EmptyString) (x :: y :: l))
      with (x +:+ String sep EmptyString +:+ String.concat (String sep EmptyString) (y :: l)).
    change (String sep EmptyString +:+ ?s) with (String sep s).
    rewrite split_append by done. by rewrite IH.
Qed.

Lemma os_path_join_chars c (a : string) (names : list string) :
  ¬ PyStr.has_char c a → Forall (λ b, ¬ PyStr.has_char c b) names → c ≠ "/"%char →
  ¬ PyStr.has_char c (PyStr.os_path_join a names).
Proof.
  unfold PyStr.os_path_join. intros Ha Hall Hc. revert a Ha.
  induction Hall as [|b names Hb _ IH]; intros a Ha; [done|].
  simpl. apply IH. unfold PyStr.join_step.
  destruct (PyStr.startswith "/" b); [done|].
  destruct (_ || _); rewrite !has_char_append.
  - tauto.
  - intros [?|[H|?]]; [tauto| |tauto].
    apply list_elem_of_singleton in H. done.
Qed.

(** The directory of a plugin whose path has no space in it has none
    either, and comes without quotes. *)
Lemma get_migration_version_dir_plain (self : FlaskBBPlugin) :
  ¬ PyStr.has_char " " (path self) →
  get_migration_version_dir self
    = PyStr.os_path_join (path self) ["migration_versions"]
  ∧ ¬ PyStr.has_char " " (get_migration_version_dir self).
Proof.
  intros Hpath.
  assert (¬ PyStr.has_char " "
            (PyStr.os_path_join (path self) ["migration_versions"])) as Hno.
  { apply os_path_join_chars; [done| |done].
    constructor; [|constructor]. intros H. apply str_in_char in H. discriminate. }
  unfold get_migration_version_dir, resource_filename.
  assert (resource_fname self ["migration_versions"]
          = PyStr.os_path_join (path self) ["migration_versions"]) as -> by done.
  apply str_in_char_false in Hno as Hb. by rewrite Hb.
Qed.

Lemma has_char_concat c (sep : string) (l : list string) :
  PyStr.has_char c (String.concat sep l) →
  PyStr.has_char c sep ∨ Exists (PyStr.has_char c) l.
Proof.
  induction l as [|x l IH]; [by inversion 1|].
  destruct l as [|y l].
  - simpl. intros H. right. by left.
  - change (String.concat sep (x :: y :: l))
      with (x +:+ sep +:+ String.concat sep (y :: l)).
    rewrite !has_char_append. intros [H|[H|H]]; [right; by left | by left |].
    destruct (IH H) as [?|?]; [by left | right; by right].
Qed.

(** The directory of a plugin whose path has no per cent sign in it, and no
    space, has none either. *)
Lemma get_migration_version_dir_percent (self : FlaskBBPlugin) :
  ¬ PyStr.has_char " " (path self) → ¬ PyStr.has_char "%" (path self) →
  ¬ PyStr.has_char "%" (get_migration_version_dir self).
Proof.
  intros Hsp Hpc. destruct (get_migration_version_dir_plain self Hsp) as [-> _].
  apply os_path_join_chars; [done| |done].
  constructor; [|constructor]. intros H. apply str_in_char in H. discriminate.
Qed.

(** When no plugin has a space or a per cent sign in its path and there is
    a plugin at all, the [version_locations] that [config_migrate] writes
    can be split at the spaces into the migration directories of the
    plugins, in the order of [_all_plugins]. *)
Theorem version_locations_split
    (interpolate : gmap string string → string → result string)
    (plugin_manager : PluginManager) (config : loc) (h : list Config) (c : Config) :
  h !! config = Some c →
  main_options c !! "version_table" = Some "plugins" →
  _all_plugins plugin_manager ≠ [] →
  Forall (λ p, ¬ PyStr.has_char " " (path p) ∧ ¬ PyStr.has_char "%" (path p))
    (values (_all_plugins plugin_manager)) →
  ∃ c', (config_migrate interpolate plugin_manager config h).2 !! config = Some c'
        ∧ PyStr.split " " <$> (main_options c' !! "version_locations")
          = Some (map (λ p, PyStr.os_path_join (path p) ["migration_versions"])
                    (values (_all_plugins plugin_manager))).
Proof.
  intros Hc Hvt Hne Hall.
  rewrite (config_migrate_run interpolate plugin_manager config h c Hc). cbv zeta.
  rewrite (get_main_option_plain interpolate config "version_table" h c "plugins");
    [|done..|intros H; apply str_in_char in H; discriminate].
  cbn [fst]. rewrite decide_True by done.
  rewrite interpolation_ok_plain; last first.
  { intros [H|H]%has_char_concat.
    - apply str_in_char in H. discriminate.
    - apply Exists_exists in H as (d & Hd & Hpc).
      apply list_elem_of_fmap in Hd as (p & -> & Hp).
      rewrite Forall_forall in Hall. destruct (Hall p Hp) as [Hsp Hno].
      by apply (get_migration_version_dir_percent p). }
  simpl. eexists. split; [apply list_lookup_insert_eq; by eapply lookup_lt_Some|].
  simpl. rewrite lookup_insert_eq. simpl. f_equal.
  rewrite split_join.
  - apply map_ext_Forall. eapply Forall_impl; [exact Hall|].
    intros p [Hp _]. by apply get_migration_version_dir_plain.
  - unfold values in *. by destruct (_all_plugins plugin_manager).
  - apply Forall_map. eapply Forall_impl; [exact Hall|].
    intros p [Hp _]. by apply get_migration_version_dir_plain.
Qed.

Lemma version_locations_split_witness :
  ∃ c', (config_migrate SampleApp.interpolate SampleApp.manager 0
           [SampleApp.plugins_ini; SampleApp.alembic_ini]).2 !! 0 = Some c'
        ∧ PyStr.split " " <$> (main_options c' !! "version_locations")
          = Some ["/srv/flaskbb/plugins/portal/migration_versions";
                  "/srv/flaskbb/plugins/plain/migration_versions"].
Proof.
  apply (version_locations_split SampleApp.interpolate SampleApp.manager 0
           [SampleApp.plugins_ini; SampleApp.alembic_ini] SampleApp.plugins_ini).
  - reflexivity.
  - reflexivity.
  - discriminate.
  - repeat (apply Forall_cons_2); try apply Forall_nil_2;
      split; apply str_in_char_false; reflexivity.
Defined.
